(** * picogrow: moisture sensing, calibration and its persisted configuration

    A shallow embedding of the logic of [main.py] and [calibrate.py]
    (Pimoroni Grow moisture monitor for the Raspberry Pi Pico) and the
    properties of its frequency measurement, of the frequency-to-percent
    conversion, of the moisture icon, of the configuration loader, of the
    calibration script, and of the WiFi credentials and the retries of
    the time synchronisation.

    Numbers. The program computes with Python numbers (ints and floats).
    They are embedded as exact rationals [Q]: every finite float is a
    rational, comparison is numeric comparison ([Qeq], [Qlt]), and the
    arithmetic is exact, so rounding is not part of this model.  Python's
    [==] on numbers is [Qeq]; an int and a float of the same value (0 and
    0.0) are the same number here, as they are for [==].

    Exceptions. A call either returns or raises; [result] records which.

    Input and output. The file system is a finite map from file names to
    contents, the console and the display are a chronological trace of
    events, and the rising and falling edges that reach the sensor pin
    while the program sleeps are an input of the measurement. *)

From Stdlib Require Import QArith Qminmax Lqa ZArith Lia List.
From stdpp Require Import gmap strings.

#[local] Set Warnings "-register-all".

(** ** Python values and exceptions *)

Module Py.

Inductive exn :=
| ZeroDivisionError
| OSError
| ValueError
| AttributeError.

Inductive result (A : Type) :=
| Ok (a : A)
| Raise (e : exn).
Arguments Ok {A} a.
Arguments Raise {A} e.

Definition bind {A B} (r : result A) (k : A -> result B) : result B :=
  match r with
  | Ok a => k a
  | Raise e => Raise e
  end.

(** [a < b], [a > b], [a >= b] and [a == b] on numbers. *)
Definition lt (a b : Q) : bool :=
  match (a ?= b)%Q with Lt => true | _ => false end.
Definition gt (a b : Q) : bool := lt b a.
Definition ge (a b : Q) : bool := negb (lt a b).
Definition eq (a b : Q) : bool := Qeq_bool a b.

(** The builtins [min(a, b)] and [max(a, b)]: the first argument is kept
    unless the second is strictly smaller (strictly greater). *)
Definition min (a b : Q) : Q := if lt b a then b else a.
Definition max (a b : Q) : Q := if gt b a then b else a.

(** True division [a / b]. *)
Definition truediv (a b : Q) : result Q :=
  if eq b 0 then Raise ZeroDivisionError else Ok (a / b)%Q.

End Py.

Notation "'let*' x ':=' r 'in' k" := (Py.bind r (fun x => k))
  (at level 10, x name, r at level 100, k at level 200, only parsing).

(** ** main.py: the sensor *)

Module Sensor.
Import Py.

(** [FREQUENCY_SAMPLE_TIME] *)
Definition FREQUENCY_SAMPLE_TIME : Q := 2.

(** A transition of the signal on the sensor pin. *)
Inductive edge := Rising | Falling.

(** [class MoistureSensor]: the pulse counter, the last measured
    frequency, and whether [count_pulse] is the registered handler of the
    pin's rising-edge interrupt. *)
Record MoistureSensor := {
  pulse_count : Z;
  last_frequency : Q;
  irq_rising : bool
}.

(** [MoistureSensor.__init__] *)
Definition init : MoistureSensor :=
  {| pulse_count := 0; last_frequency := 0; irq_rising := false |}.

(** [MoistureSensor.count_pulse] *)
Definition count_pulse (s : MoistureSensor) : MoistureSensor :=
  {| pulse_count := pulse_count s + 1;
     last_frequency := last_frequency s;
     irq_rising := irq_rising s |}.

(** One transition reaching the pin: the handler runs when it is
    registered and the transition is a rising edge. *)
Definition dispatch (s : MoistureSensor) (e : edge) : MoistureSensor :=
  match e with
  | Rising => if irq_rising s then count_pulse s else s
  | Falling => s
  end.

(** [time.sleep] as the sensor sees it: the transitions of the window
    are delivered one after the other. *)
Definition sleep (window : list edge) (s : MoistureSensor) : MoistureSensor :=
  fold_left dispatch window s.

(** [MoistureSensor.read_frequency], given the transitions that occur
    on the pin during the [sample_time] seconds of sleep.  The sensor is
    returned as the call leaves it, also when the division raises. *)
Definition read_frequency (sample_time : Q) (window : list edge)
    (s : MoistureSensor) : result Q * MoistureSensor :=
  let s := {| pulse_count := 0;
              last_frequency := last_frequency s;
              irq_rising := irq_rising s |} in
  let s := {| pulse_count := pulse_count s;
              last_frequency := last_frequency s;
              irq_rising := true |} in
  let s := sleep window s in
  let s := {| pulse_count := pulse_count s;
              last_frequency := last_frequency s;
              irq_rising := false |} in
  match truediv (inject_Z (pulse_count s)) sample_time with
  | Ok frequency =>
      (Ok frequency,
       {| pulse_count := pulse_count s;
          last_frequency := frequency;
          irq_rising := irq_rising s |})
  | Raise e => (Raise e, s)
  end.

(** [MoistureSensor.read_moisture_percent] from the clamp on (the lines
    after the frequency has been measured): the conversion of a
    frequency to a moisture percentage. *)
Definition percent_of_frequency (dry_freq wet_freq freq : Q) : result Q :=
  let freq := max (min freq dry_freq) wet_freq in
  if eq dry_freq wet_freq then Ok 0%Q
  else
    let* q := truediv (dry_freq - freq)%Q (dry_freq - wet_freq)%Q in
    let moisture_percent := (q * 100)%Q in
    Ok (max 0 (min 100 moisture_percent)).

(** [MoistureSensor.read_moisture_percent] *)
Definition read_moisture_percent (dry_freq wet_freq : Q)
    (window : list edge) (s : MoistureSensor) : result Q * MoistureSensor :=
  match read_frequency FREQUENCY_SAMPLE_TIME window s with
  | (Ok freq, s) => (percent_of_frequency dry_freq wet_freq freq, s)
  | (Raise e, s) => (Raise e, s)
  end.

(** The number of rising edges in a window. *)
Fixpoint rising_edges (window : list edge) : Z :=
  match window with
  | nil => 0
  | Rising :: rest => 1 + rising_edges rest
  | Falling :: rest => rising_edges rest
  end.

(** A square wave of [n] pulses, as the sensor's oscillator drives the
    pin. *)
Fixpoint pulses (n : nat) : list edge :=
  match n with
  | O => nil
  | S k => Rising :: Falling :: pulses k
  end.

End Sensor.

(** ** Files, console and display *)

Module IO.
Import Py.

(** A Python object that [json.load] can return. *)
Inductive json :=
| JNull
| JBool (b : bool)
| JNum (x : Q)
| JStr (s : string)
| JList (items : list json)
| JDict (members : gmap string json).

(** The text of a file as [json.load] sees it: text it rejects, or the
    object it returns.  [json.dump] of an object writes a document that
    loads back as that object. *)
Inductive content :=
| Malformed (text : string)
| Document (v : json).

(** A piece of a formatted string: literal text, [{v}] for an object,
    [{x:.Nf}] for a number printed with [N] decimals, [{i}] for an
    integer. *)
Inductive piece :=
| T (text : string)
| V (v : json)
| F (decimals : nat) (x : Q)
| I (i : Z).

Definition line := list piece.

(** What the operator sees, in order: a line on the console, the lines
    drawn on the display (with their vertical offset) when it is
    refreshed, and a pause. *)
Inductive event :=
| Print (l : line)
| Screen (drawn : list (Z * line))
| Sleep (seconds : Q).

Record world := {
  files : gmap string content;
  trace : list event
}.

Definition emit (es : list event) (w : world) : world :=
  {| files := files w; trace := trace w ++ es |}.

(** [w'] is [w] after more output: the trace of [w] is a prefix of the
    trace of [w']. *)
Definition extends (w w' : world) : Prop :=
  exists es, trace w' = trace w ++ es.

(** A device fresh from flashing: no file, nothing printed yet. *)
Definition blank : world := {| files := ∅; trace := [] |}.

(** [open(name, 'r')] followed by [json.load]. *)
Definition load_json (name : string) (w : world) : result json :=
  match files w !! name with
  | None => Raise OSError
  | Some (Malformed _) => Raise ValueError
  | Some (Document v) => Ok v
  end.

(** [open(name, 'w')] followed by [json.dump(data, f)]. *)
Definition dump_json (name : string) (data : json) (w : world) : world :=
  {| files := <[name := Document data]> (files w); trace := trace w |}.

(** [data.get(key, default)]: only a dict has the method. *)
Definition get (data : json) (key : string) (default : json) : result json :=
  match data with
  | JDict members =>
      match members !! key with
      | Some v => Ok v
      | None => Ok default
      end
  | _ => Raise AttributeError
  end.

(** Truth value of a formatted string: it is not empty.  A formatted
    object or number always prints at least one character. *)
Definition nonempty (l : line) : bool :=
  existsb (fun p => match p with
                    | T text => negb (String.eqb text "")
                    | _ => true
                    end) l.

(** [MoistureDisplay.show_message]: the display is cleared, each line
    that is not empty is drawn at its offset, and the display is
    refreshed. *)
Definition show_message (line1 line2 line3 line4 : line) (w : world) : world :=
  let drawn := if nonempty line1 then [(0%Z, line1)] else [] in
  let drawn := if nonempty line2 then drawn ++ [(16%Z, line2)] else drawn in
  let drawn := if nonempty line3 then drawn ++ [(32%Z, line3)] else drawn in
  let drawn := if nonempty line4 then drawn ++ [(48%Z, line4)] else drawn in
  emit [Screen drawn] w.

(** A newline, and [s * n]. *)
Definition nl : string := String (Ascii.ascii_of_nat 10) EmptyString.

Fixpoint times (s : string) (n : nat) : string :=
  match n with
  | O => ""
  | S k => s +:+ times s k
  end.

End IO.

(** ** main.py: the persisted configuration *)

Module Config.
Import Py IO.

(** [CONFIG_FILE] *)
Definition CONFIG_FILE : string := "moisture_config.json".

(** [class Configuration] *)
Record Configuration := {
  filename : string;
  dry_freq : json;
  wet_freq : json
}.

(** [Configuration.save] *)
Definition save (self : Configuration) (w : world) : world :=
  let data := JDict {[ "dry_freq" := dry_freq self; "wet_freq" := wet_freq self ]} in
  let w := dump_json (filename self) data w in
  emit [Print [T "Saved config: dry="; V (dry_freq self);
               T "Hz, wet="; V (wet_freq self); T "Hz"]] w.

(** The body of the [try] of [Configuration.load].  Nothing is assigned
    before the last call that can raise, so when it raises the object is
    as it was. *)
Definition load_try (self : Configuration) (w : world) : result Configuration :=
  let* data := load_json (filename self) w in
  let* dry := get data "dry_freq" (JNum 27.0) in
  let* wet := get data "wet_freq" (JNum 5.0) in
  Ok {| filename := filename self; dry_freq := dry; wet_freq := wet |}.

(** [Configuration.load] *)
Definition load (self : Configuration) (w : world) : Configuration * world :=
  match load_try self w with
  | Ok self =>
      (self,
       emit [Print [T "Loaded config: dry="; V (dry_freq self);
                    T "Hz, wet="; V (wet_freq self); T "Hz"]] w)
  | Raise _ =>
      let w := emit [Print [T "No config file found, using defaults"]] w in
      (self, save self w)
  end.

(** [Configuration.__init__] *)
Definition init (filename : string) (w : world) : Configuration * world :=
  let self := {| filename := filename;
                 dry_freq := JNum 27.0;
                 wet_freq := JNum 5.0 |} in
  load self w.

(** The file that [save] leaves for the default values. *)
Definition default_document : content :=
  Document (JDict {[ "dry_freq" := JNum 27.0; "wet_freq" := JNum 5.0 ]}).

(** A device whose configuration file is an object with only the wet
    frequency, as left by a hand edit. *)
Definition hand_edited : world :=
  {| files := {[ CONFIG_FILE := Document (JDict {[ "wet_freq" := JNum 3.5 ]}) ]};
     trace := [] |}.

End Config.

(** ** calibrate.py: the calibration script *)

Module Calibrate.
Import Py IO Sensor.

(** [CONFIG_FILE], [PREP_TIME], [SAMPLE_TIME] *)
Definition CONFIG_FILE : string := "moisture_config.json".
Definition PREP_TIME : nat := 10.
Definition SAMPLE_TIME : Q := 3.

(** [calibrate.py] has its own [MoistureSensor], whose [read_frequency]
    is the one of [main.py] line for line; [Sensor.read_frequency]
    stands for both. *)

(** [countdown_timer]: one pass per remaining second, from [seconds]
    down to 1. *)
Fixpoint countdown_timer (seconds : nat) (message : string) (w : world) : world :=
  match seconds with
  | O => w
  | S rest =>
      let i := Z.of_nat seconds in
      let w := show_message [T message] [T ""] [I i; T " seconds..."] [T "Get ready!"] w in
      let w := emit [Print [T message; T " - "; I i; T " seconds remaining..."];
                     Sleep 1] w in
      countdown_timer rest message w
  end.

(** [save_config] *)
Definition save_config (dry_freq wet_freq : Q) (w : world) : world :=
  let data := JDict {[ "dry_freq" := JNum dry_freq; "wet_freq" := JNum wet_freq ]} in
  let w := dump_json CONFIG_FILE data w in
  emit [Print [T nl; T "Calibration saved to "; T CONFIG_FILE];
        Print [T "  Dry: "; F 2 dry_freq; T " Hz (HIGH frequency - in air)"];
        Print [T "  Wet: "; F 2 wet_freq; T " Hz (LOW frequency - in water)"]] w.

(** The screens and console lines of [main] that report a rejected or
    doubtful calibration. *)
Definition error_screen : event :=
  Screen [(0%Z, [T "ERROR!"]); (16%Z, [T "Dry <= Wet"]); (32%Z, [T "Try again"])].
Definition low_dry_screen : event :=
  Screen [(0%Z, [T "WARNING!"]); (16%Z, [T "Low dry freq"]); (32%Z, [T "Check setup"])].
Definition high_wet_screen : event :=
  Screen [(0%Z, [T "WARNING!"]); (16%Z, [T "High wet freq"]); (32%Z, [T "Check setup"])].
Definition low_dry_warning : event :=
  Print [T nl; T "⚠️  WARNING: Dry frequency seems low (<15 Hz)"].
Definition high_wet_warning : event :=
  Print [T nl; T "⚠️  WARNING: Wet frequency seems high (>10 Hz)"].

(** [main] up to and including the dry measurement. *)
Definition step1 (dry_window : list edge) (sensor : MoistureSensor) (w : world)
    : result Q * MoistureSensor * world :=
  let w := emit [Print [T nl; T (times "=" 60)];
                 Print [T "STEP 1: DRY CALIBRATION (expect HIGH frequency)"];
                 Print [T (times "=" 60)];
                 Print [T nl; T "INSTRUCTIONS:"];
                 Print [T "1. Remove sensor from soil completely"];
                 Print [T "2. Hold sensor in AIR (not touching anything wet)"];
                 Print [T "3. Keep sensor steady during measurement"];
                 Print [T nl; T "You have "; I (Z.of_nat PREP_TIME); T " seconds to prepare..."];
                 Print [T "Starting countdown NOW!"; T nl]] w in
  let w := show_message [T "STEP 1:"] [T "Remove sensor"] [T "Hold in AIR"] [T ""] w in
  let w := countdown_timer PREP_TIME "DRY - Hold in air" w in
  let w := show_message [T "Measuring..."] [T "DRY reading"] [T "Hold still!"] [T ""] w in
  let w := emit [Print [T nl; T "Measuring DRY frequency..."];
                 Print [T "(Hold sensor steady in air)"]] w in
  match read_frequency SAMPLE_TIME dry_window sensor with
  | (Raise e, sensor) => (Raise e, sensor, emit [Sleep SAMPLE_TIME] w)
  | (Ok dry_freq, sensor) =>
      let w := emit [Sleep SAMPLE_TIME;
                     Print [T nl; T "✓ DRY frequency measured: "; F 2 dry_freq; T " Hz"]] w in
      let w := show_message [T "DRY Reading:"] [F 1 dry_freq; T " Hz"]
                            [T "(HIGH freq)"] [T "Step 1 done!"] w in
      (Ok dry_freq, sensor, emit [Sleep 3] w)
  end.

(** [main] from there up to and including the wet measurement. *)
Definition step2 (wet_window : list edge) (sensor : MoistureSensor) (w : world)
    : result Q * MoistureSensor * world :=
  let w := emit [Print [T nl; T (times "=" 60)];
                 Print [T "STEP 2: WET CALIBRATION (expect LOW frequency)"];
                 Print [T (times "=" 60)];
                 Print [T nl; T "INSTRUCTIONS:"];
                 Print [T "1. Place sensor in a glass/cup of water, OR"];
                 Print [T "2. Push sensor into VERY wet/saturated soil"];
                 Print [T "3. Make sure sensor is fully submerged/surrounded"];
                 Print [T nl; T "You have "; I (Z.of_nat PREP_TIME); T " seconds to prepare..."];
                 Print [T "Starting countdown NOW!"; T nl]] w in
  let w := show_message [T "STEP 2:"] [T "Put sensor"] [T "in WATER"] [T ""] w in
  let w := countdown_timer PREP_TIME "WET - Put in water" w in
  let w := show_message [T "Measuring..."] [T "WET reading"] [T "Hold still!"] [T ""] w in
  let w := emit [Print [T nl; T "Measuring WET frequency..."];
                 Print [T "(Sensor should be in water/very wet soil)"]] w in
  match read_frequency SAMPLE_TIME wet_window sensor with
  | (Raise e, sensor) => (Raise e, sensor, emit [Sleep SAMPLE_TIME] w)
  | (Ok wet_freq, sensor) =>
      let w := emit [Sleep SAMPLE_TIME;
                     Print [T nl; T "✓ WET frequency measured: "; F 2 wet_freq; T " Hz"]] w in
      let w := show_message [T "WET Reading:"] [F 1 wet_freq; T " Hz"]
                            [T "(LOW freq)"] [T "Step 2 done!"] w in
      (Ok wet_freq, sensor, emit [Sleep 3] w)
  end.

(** The closing summary of [main], after the calibration is saved. *)
Definition summary (dry_freq wet_freq : Q) (w : world) : world :=
  let w := emit [Print [T nl; T (times "=" 60)];
                 Print [T "✓ CALIBRATION COMPLETE!"];
                 Print [T (times "=" 60)];
                 Print [T nl; T "Your calibration values:"];
                 Print [T "  Dry: "; F 2 dry_freq; T " Hz  (HIGH - sensor in air)"];
                 Print [T "  Wet: "; F 2 wet_freq; T " Hz  (LOW - sensor in water)"];
                 Print [T "  Range: "; F 2 (dry_freq - wet_freq)%Q; T " Hz"];
                 Print [T nl; T "These values are saved to: "; T CONFIG_FILE];
                 Print [T nl; T "How the sensor works:"];
                 Print [T "  - More moisture = Lower frequency"];
                 Print [T "  - Less moisture = Higher frequency"];
                 Print [T "  - This is INVERSE relationship (capacitance-based)"];
                 Print [T nl; T "Expected moisture readings:"];
                 Print [T "  Air/Very dry:     ~"; F 0 dry_freq; T "Hz = 0-10%"];
                 Print [T "  Dry soil:         ~"; F 0 ((dry_freq + wet_freq) / 2)%Q;
                        T "Hz = 30-50%"];
                 Print [T "  Moist soil:       ~";
                        F 0 (wet_freq + (dry_freq - wet_freq) * 0.3)%Q; T "Hz = 60-80%"];
                 Print [T "  Wet/Saturated:    ~"; F 0 wet_freq; T "Hz = 90-100%"];
                 Print [T nl; T "You can now run the main monitoring program!"];
                 Print [T (times "=" 60); T nl]] w in
  let w := show_message [T "Ready to"] [T "monitor!"] [T ""] [T "Run main.py"] w in
  emit [Sleep 3; Screen []] w.

(** [main] from the results banner on: validation of the two measured
    frequencies, and the save. *)
Definition validate_and_save (dry_freq wet_freq : Q) (w : world) : world :=
  let w := emit [Print [T nl; T (times "=" 60)];
                 Print [T "CALIBRATION RESULTS"];
                 Print [T (times "=" 60)];
                 Print [T nl; T "Dry frequency:  "; F 2 dry_freq; T " Hz (should be HIGH)"];
                 Print [T "Wet frequency:  "; F 2 wet_freq; T " Hz (should be LOW)"];
                 Print [T "Difference:     "; F 2 (dry_freq - wet_freq)%Q; T " Hz"]] w in
  if ge wet_freq dry_freq then
    let w := emit [Print [T nl; T "⚠️  ERROR: Dry frequency should be HIGHER than wet!"];
                   Print [T "    Capacitive sensors have INVERSE relationship:"];
                   Print [T "    - Dry (air) = HIGH frequency"];
                   Print [T "    - Wet (water) = LOW frequency"];
                   Print [T "    Got: Dry="; F 1 dry_freq; T "Hz, Wet="; F 1 wet_freq; T "Hz"];
                   Print [T "    Something went wrong - try again!"]] w in
    let w := show_message [T "ERROR!"] [T "Dry <= Wet"] [T "Try again"] [T ""] w in
    emit [Sleep 5] w
  else
    let w :=
      if lt dry_freq 15 then
        let w := emit [low_dry_warning;
                       Print [T "    Expected ~20-30 Hz for sensor in air"];
                       Print [T "    Was the sensor actually in air?"]] w in
        let w := show_message [T "WARNING!"] [T "Low dry freq"] [T "Check setup"] [T ""] w in
        emit [Sleep 5] w
      else w in
    let w :=
      if gt wet_freq 10 then
        let w := emit [high_wet_warning;
                       Print [T "    Expected ~0-5 Hz for sensor in water"];
                       Print [T "    Was the sensor actually submerged?"]] w in
        let w := show_message [T "WARNING!"] [T "High wet freq"] [T "Check setup"] [T ""] w in
        emit [Sleep 5] w
      else w in
    let w := emit [Print [T nl; T "Saving calibration..."]] w in
    let w := save_config dry_freq wet_freq w in
    let w := show_message [T "Calibration"] [T "COMPLETE!"] [T ""] [T "Saved!"] w in
    let w := emit [Sleep 3] w in
    summary dry_freq wet_freq w.

(** A device that already holds a calibration: the default one. *)
Definition calibrated : world :=
  {| files := {[ CONFIG_FILE := Config.default_document ]}; trace := [] |}.

(** [main], given the transitions on the pin during the dry and the wet
    sampling windows. *)
Definition main (dry_window wet_window : list edge) (w : world) : result unit * world :=
  let w := emit [Print [T nl; T (times "=" 60)];
                 Print [T "MANUAL CALIBRATION - Button-less Version (FIXED)"];
                 Print [T (times "=" 60)];
                 Print [T nl; T "IMPORTANT: Capacitive sensors have INVERSE frequency!"];
                 Print [T "  - Dry (air) = HIGH frequency (~20-30 Hz)"];
                 Print [T "  - Wet (water) = LOW frequency (~0-5 Hz)"];
                 Print [T nl; T "This script will guide you through calibration with"];
                 Print [I (Z.of_nat PREP_TIME); T " seconds between each measurement."; T nl];
                 Print [T "Initializing hardware..."]] w in
  let sensor := Sensor.init in
  let w := show_message [T "CALIBRATION"] [T "Starting..."] [T ""] [T ""] w in
  let w := emit [Sleep 2] w in
  match step1 dry_window sensor w with
  | (Raise e, _, w) => (Raise e, w)
  | (Ok dry_freq, sensor, w) =>
      match step2 wet_window sensor w with
      | (Raise e, _, w) => (Raise e, w)
      | (Ok wet_freq, _, w) => (Ok tt, validate_and_save dry_freq wet_freq w)
      end
  end.

End Calibrate.

(** ** main.py: the moisture icon *)

Module Display.
Import Py.

(** The three drop bitmaps that [MoistureDisplay] holds as frame
    buffers. *)
Inductive icon := icon_empty | icon_half | icon_full.

(** [MoistureDisplay.get_icon_for_moisture] *)
Definition get_icon_for_moisture (moisture_percent : Q) : icon :=
  if lt moisture_percent 34 then icon_empty
  else if lt moisture_percent 67 then icon_half
  else icon_full.

(** The icon name that the monitoring loop of [main] prints for a
    reading, from its own copy of the thresholds. *)
Definition icon_name (moisture : Q) : string :=
  if lt moisture 34 then "EMPTY"
  else if lt moisture 67 then "HALF"
  else "FULL".

End Display.

(** ** main.py: WiFi credentials and time synchronisation *)

Module Wifi.
Import Py IO.

(** [WIFI_CONFIG_FILE], [TIMEZONE_OFFSET] *)
Definition WIFI_CONFIG_FILE : string := "wifi_config.json".
Definition TIMEZONE_OFFSET : Z := 0.

(** What the [try] of [load_credentials] can raise: an exception of
    opening or parsing the file, or one of the subscript [config[key]]. *)
Inductive failure :=
| Load (e : exn)
| KeyError (key : string)
| TypeError.

(** [config[key]] for a string key: a dict has it or raises [KeyError];
    no other JSON object can be indexed by a string. *)
Definition subscript (config : json) (key : string) : json + failure :=
  match config with
  | JDict members =>
      match members !! key with
      | Some v => inl v
      | None => inr (KeyError key)
      end
  | _ => inr TypeError
  end.

Section Credentials.

(** The text [str(e)] of an exception, which the interpreter fixes. *)
Variable describe : failure -> string.

(** The [except] branch of [load_credentials]. *)
Definition no_credentials (e : failure) (w : world) : (json * json) * world :=
  ((JNull, JNull),
   emit [Print [T "Error loading WiFi config: "; T (describe e)]] w).

(** [WiFiManager.load_credentials] *)
Definition load_credentials (w : world) : (json * json) * world :=
  match load_json WIFI_CONFIG_FILE w with
  | Raise e => no_credentials (Load e) w
  | Ok config =>
      match subscript config "ssid" with
      | inr e => no_credentials e w
      | inl ssid =>
          match subscript config "password" with
          | inr e => no_credentials e w
          | inl password => ((ssid, password), w)
          end
      end
  end.

End Credentials.

(** The tuple of [time.localtime()]. *)
Record localtime := {
  year : Z;
  month : Z;
  mday : Z;
  hour : Z;
  minute : Z;
  second : Z;
  weekday : Z;
  yearday : Z
}.

(** [{n:02d}]: the integer, with a leading zero when it is a single
    digit. *)
Definition pad02 (n : Z) : line :=
  if ((0 <=? n) && (n <? 10))%Z then [T "0"; I n] else [I n].

(** [format_timestamp], given the local time it reads. *)
Definition format_timestamp (t : localtime) : line :=
  [I (year t); T "-"] ++ pad02 (month t) ++ [T "-"] ++ pad02 (mday t) ++ [T " "]
  ++ pad02 (hour t) ++ [T ":"] ++ pad02 (minute t) ++ [T ":"] ++ pad02 (second t).

(** An attempt of [ntptime.settime()]: it returns, and the local time is
    then read, or it raises an exception with some text. *)
Inductive ntp :=
| Synced (current_time : localtime)
| Failed (message : string).

(** The [for] loop of [sync_time], with [remaining] passes to go from
    pass [attempt] on; [server] gives the outcome of each call of
    [ntptime.settime()].  The flag tells whether the loop returned
    [True]. *)
Fixpoint sync_attempts (max_retries : nat) (server : nat -> ntp)
    (remaining attempt : nat) (w : world) : bool * world :=
  match remaining with
  | O => (false, w)
  | S rest =>
      match server attempt with
      | Synced current_time =>
          let w := emit [Print ([T "✓ Time synced: "; I (year current_time); T "-"]
                                ++ pad02 (month current_time) ++ [T "-"]
                                ++ pad02 (mday current_time) ++ [T " "]
                                ++ pad02 (hour current_time) ++ [T ":"]
                                ++ pad02 (minute current_time) ++ [T ":"]
                                ++ pad02 (second current_time))] w in
          let w := if negb (TIMEZONE_OFFSET =? 0)%Z
                   then emit [Print [T "Applying timezone offset: +";
                                     I TIMEZONE_OFFSET; T " hours"]] w
                   else w in
          (true, w)
      | Failed message =>
          let w := emit [Print [T "NTP sync attempt "; I (Z.of_nat attempt + 1);
                                T " failed: "; T message]] w in
          let w := if (Z.of_nat attempt <? Z.of_nat max_retries - 1)%Z
                   then emit [Sleep 2] w
                   else w in
          sync_attempts max_retries server rest (S attempt) w
      end
  end.

(** [WiFiManager.sync_time], given the [connected] flag of the manager. *)
Definition sync_time (connected : bool) (max_retries : nat) (server : nat -> ntp)
    (w : world) : bool * world :=
  if negb connected then
    (false, emit [Print [T "Not connected to WiFi, cannot sync time"]] w)
  else
    let w := emit [Print [T "Syncing time from NTP server..."]] w in
    match sync_attempts max_retries server max_retries 0 w with
    | (true, w) => (true, w)
    | (false, w) => (false, emit [Print [T "Failed to sync time after all retries"]] w)
    end.

(** Two servers to try [sync_time] on: one that times out once and then
    answers, one that never answers. *)
Definition second_try (attempt : nat) : ntp :=
  match attempt with
  | O => Failed "[Errno 110] ETIMEDOUT"
  | _ => Synced {| year := 2025; month := 10; mday := 7; hour := 9; minute := 5;
                   second := 30; weekday := 1; yearday := 280 |}
  end.

Definition unreachable (attempt : nat) : ntp := Failed "[Errno 110] ETIMEDOUT".

End Wifi.

(** ** Reading a trace *)

Module Trace.
Import IO.

(** The pauses of a stretch of output, in order, and the time they add
    up to. *)
Fixpoint pauses (es : list event) : list Q :=
  match es with
  | [] => []
  | Sleep seconds :: rest => seconds :: pauses rest
  | _ :: rest => pauses rest
  end.

Definition total (durations : list Q) : Q := fold_right Qplus 0%Q durations.

(** A screen whose first line is [ERROR!] or [WARNING!]. *)
Definition alarm (e : event) : bool :=
  match e with
  | Screen ((_, [T text]) :: _) => String.eqb text "ERROR!" || String.eqb text "WARNING!"
  | _ => false
  end.

(** A console line that starts a new paragraph with the warning sign. *)
Definition caution (e : event) : bool :=
  match e with
  | Print (T _ :: T text :: _) => String.prefix "⚠️" text
  | _ => false
  end.

(** An event that is neither. *)
Definition calm (e : event) : Prop := alarm e = false /\ caution e = false.

(** [w'] is [w] with the events [es] added at the end of its trace. *)
Definition adds (w w' : world) (es : list event) : Prop :=
  trace w' = trace w ++ es.

End Trace.

(** The reference conversion as the specification words it: clamp the
    frequency into [[w, d]] by [max(min(frequency, d), w)], then
    [(d - clamped) / (d - w) * 100]. *)
Definition reference_percent (d w frequency : Q) : Q :=
  let clamped := Qmax (Qmin frequency d) w in
  ((d - clamped) / (d - w) * 100)%Q.

(** ** Facts about the Python primitives *)

Module PyFacts.
Import Py.
Local Open Scope Q_scope.

Lemma lt_true (a b : Q) : lt a b = true <-> a < b.
Proof.
  unfold lt. rewrite Qlt_alt.
  destruct (a ?= b); split; intros H; congruence.
Qed.

Lemma lt_false (a b : Q) : lt a b = false <-> b <= a.
Proof.
  unfold lt.
  destruct (Qcompare_spec a b) as [H | H | H]; split; intros H';
    try reflexivity; try discriminate; try lra.
Qed.

Lemma eq_true (a b : Q) : eq a b = true <-> a == b.
Proof. apply Qeq_bool_iff. Qed.

Lemma eq_false (a b : Q) : eq a b = false <-> ~ a == b.
Proof.
  rewrite <- eq_true.
  destruct (eq a b); split; intros H; congruence.
Qed.

Lemma min_cases (a b : Q) :
  (b < a /\ min a b = b) \/ (a <= b /\ min a b = a).
Proof.
  unfold min. destruct (lt b a) eqn:E.
  - left. split; [ apply lt_true, E | reflexivity ].
  - right. split; [ apply lt_false, E | reflexivity ].
Qed.

Lemma max_cases (a b : Q) :
  (a < b /\ max a b = b) \/ (b <= a /\ max a b = a).
Proof.
  unfold max, gt. destruct (lt a b) eqn:E.
  - left. split; [ apply lt_true, E | reflexivity ].
  - right. split; [ apply lt_false, E | reflexivity ].
Qed.

(** The builtins compute what [Qmin] and [Qmax] compute, so the
    reference conversion clamps exactly as the program does. *)
Lemma min_is_Qmin (a b : Q) : min a b = Qmin a b.
Proof.
  unfold min, lt, Qmin, GenericMinMax.gmin.
  rewrite <- (Qcompare_antisym a b). destruct (a ?= b); reflexivity.
Qed.

Lemma max_is_Qmax (a b : Q) : max a b = Qmax a b.
Proof.
  unfold max, gt, lt, Qmax, GenericMinMax.gmax.
  destruct (a ?= b); reflexivity.
Qed.

Lemma truediv_ok (a b : Q) : ~ b == 0 -> truediv a b = Ok (a / b).
Proof. intros H. unfold truediv. apply eq_false in H. rewrite H. reflexivity. Qed.

Lemma truediv_zero (a b : Q) : b == 0 -> truediv a b = Raise ZeroDivisionError.
Proof. intros H. unfold truediv. apply eq_true in H. rewrite H. reflexivity. Qed.

(** The final clamp [max(0, min(100, x))] lands in [[0, 100]] and is the
    identity there. *)
Lemma clamp_bounds (x : Q) : 0 <= max 0 (min 100 x) <= 100.
Proof.
  destruct (min_cases 100 x) as [[H ->] | [H ->]];
    [ destruct (max_cases 0 x) as [[H' ->] | [H' ->]]
    | destruct (max_cases 0 100) as [[H' ->] | [H' ->]] ]; lra.
Qed.

Lemma clamp_id (x : Q) : 0 <= x <= 100 -> max 0 (min 100 x) == x.
Proof.
  intros [H0 H100].
  destruct (min_cases 100 x) as [[H ->] | [H ->]];
    [ destruct (max_cases 0 x) as [[H' ->] | [H' ->]]
    | destruct (max_cases 0 100) as [[H' ->] | [H' ->]] ]; lra.
Qed.

End PyFacts.

(** ** The sensor: frequency measurement and conversion *)

Module SensorFacts.
Import Py PyFacts Sensor.
Local Open Scope Q_scope.

(** *** The pulse counter *)

Lemma dispatch_irq (s : MoistureSensor) (e : edge) :
  irq_rising (dispatch s e) = irq_rising s.
Proof.
  destruct e; simpl; [ | reflexivity ].
  destruct (irq_rising s) eqn:E; simpl; congruence.
Qed.

Lemma sleep_irq (window : list edge) : forall s : MoistureSensor,
  irq_rising (sleep window s) = irq_rising s.
Proof.
  induction window as [ | e rest IH ]; intros s; simpl.
  - reflexivity.
  - unfold sleep in IH. rewrite IH. apply dispatch_irq.
Qed.

(** While the handler is registered the counter advances by the number
    of rising edges of the window. *)
Lemma sleep_counts (window : list edge) : forall s : MoistureSensor,
  irq_rising s = true ->
  pulse_count (sleep window s) = (pulse_count s + rising_edges window)%Z.
Proof.
  induction window as [ | e rest IH ]; intros s Hs; simpl.
  - lia.
  - unfold sleep in IH. rewrite IH by (rewrite dispatch_irq; exact Hs).
    destruct e; simpl; [ rewrite Hs; simpl | ]; lia.
Qed.


Lemma rising_edges_nonneg (window : list edge) : (0 <= rising_edges window)%Z.
Proof. induction window as [ | [ | ] rest IH ]; simpl; lia. Qed.

(** *** The conversion *)

Lemma percent_degenerate (d w f : Q) :
  d == w -> percent_of_frequency d w f = Ok 0.
Proof.
  intros H. unfold percent_of_frequency.
  apply eq_true in H. rewrite H. reflexivity.
Qed.

Lemma percent_regular (d w f : Q) :
  ~ d == w ->
  percent_of_frequency d w f =
    Ok (max 0 (min 100 ((d - max (min f d) w) / (d - w) * 100))).
Proof.
  intros H. unfold percent_of_frequency.
  pose proof H as H'. apply eq_false in H'. rewrite H'.
  rewrite truediv_ok by lra. reflexivity.
Qed.

(** The first clamp puts the frequency between the calibration points. *)
Lemma clamped_range (d w f : Q) :
  w <= d -> w <= max (min f d) w <= d.
Proof.
  intros H.
  destruct (min_cases f d) as [[H1 ->] | [H1 ->]];
    [ destruct (max_cases d w) as [[H2 ->] | [H2 ->]]
    | destruct (max_cases f w) as [[H2 ->] | [H2 ->]] ]; lra.
Qed.

Lemma clamped_inside (d w f : Q) :
  w <= f <= d -> max (min f d) w == f.
Proof.
  intros [Hw Hd].
  destruct (min_cases f d) as [[H1 ->] | [H1 ->]];
    [ destruct (max_cases d w) as [[H2 ->] | [H2 ->]]
    | destruct (max_cases f w) as [[H2 ->] | [H2 ->]] ]; lra.
Qed.

(** An inverted calibration clamps every frequency to the wet point. *)
Lemma clamped_inverted (d w f : Q) :
  d < w -> max (min f d) w = w.
Proof.
  intros H.
  destruct (min_cases f d) as [[H1 ->] | [H1 ->]];
    [ destruct (max_cases d w) as [[H2 ->] | [H2 ->]]
    | destruct (max_cases f w) as [[H2 ->] | [H2 ->]] ];
    try reflexivity; lra.
Qed.

(** The interpolation between the calibration points. *)
Lemma ratio_antitone (d w c1 c2 : Q) :
  w < d -> c1 <= c2 ->
  (d - c2) / (d - w) * 100 <= (d - c1) / (d - w) * 100.
Proof.
  intros Hdw Hc. apply Qmult_le_compat_r; [ | lra ].
  unfold Qdiv. apply Qmult_le_compat_r; [ lra | ].
  apply Qinv_le_0_compat. lra.
Qed.

Lemma ratio_at_dry (d w : Q) : w < d -> (d - d) / (d - w) * 100 == 0.
Proof. intros H. field. lra. Qed.

Lemma ratio_at_wet (d w : Q) : ~ d == w -> (d - w) / (d - w) * 100 == 100.
Proof. intros H. field. lra. Qed.

Lemma ratio_bounds (d w c : Q) :
  w < d -> w <= c <= d -> 0 <= (d - c) / (d - w) * 100 <= 100.
Proof.
  intros Hdw [Hw Hd]. split.
  - apply Qle_trans with ((d - d) / (d - w) * 100).
    + rewrite ratio_at_dry by assumption. lra.
    + apply ratio_antitone; assumption.
  - apply Qle_trans with ((d - w) / (d - w) * 100).
    + apply ratio_antitone; assumption.
    + rewrite ratio_at_wet by lra. lra.
Qed.

End SensorFacts.

(** ** The frequency measurement *)

Module Measurement.
Import Py PyFacts Sensor SensorFacts.
Local Open Scope Q_scope.

(** A measurement over a window of non-zero length returns the number
    of rising edges divided by the length, and leaves the sensor with
    that count, that frequency and no handler registered. *)
Lemma read_frequency_ok (sample_time : Q) (window : list edge) (s : MoistureSensor) :
  ~ sample_time == 0 ->
  read_frequency sample_time window s =
    (Ok (inject_Z (rising_edges window) / sample_time),
     {| pulse_count := rising_edges window;
        last_frequency := inject_Z (rising_edges window) / sample_time;
        irq_rising := false |}).
Proof.
  intros H. unfold read_frequency. cbn [pulse_count last_frequency irq_rising].
  rewrite sleep_counts by reflexivity. cbn [pulse_count].
  rewrite Z.add_0_l, truediv_ok by exact H. reflexivity.
Qed.

(** A window of length zero makes the division raise. *)
Lemma read_frequency_zero_window (window : list edge) (s : MoistureSensor) :
  fst (read_frequency 0 window s) = Raise ZeroDivisionError.
Proof. unfold read_frequency. rewrite truediv_zero by reflexivity. reflexivity. Qed.

Lemma rising_edges_pulses (n : nat) : rising_edges (pulses n) = Z.of_nat n.
Proof. induction n as [ | k IH ]; [ reflexivity | ]. cbn [pulses rising_edges]. lia. Qed.

(** C5. For every sample duration greater than zero [read_frequency]
    returns the number of rising edges counted during the window divided
    by the duration, and records it as the last frequency.  Ten pulses
    over 2 seconds give 5 Hz; no pulse at all gives 0 Hz, a result and
    not an error. *)
Theorem read_frequency_quotient (sample_time : Q) (window : list edge)
    (s : MoistureSensor) :
  0 < sample_time ->
  exists (frequency : Q) (s' : MoistureSensor),
    read_frequency sample_time window s = (Ok frequency, s')
    /\ pulse_count s' = rising_edges window
    /\ frequency = inject_Z (pulse_count s') / sample_time
    /\ last_frequency s' = frequency
    /\ (rising_edges window = 10%Z -> sample_time == 2 -> frequency == 5)
    /\ (rising_edges window = 0%Z -> frequency == 0).
Proof.
  intros Hpos.
  eexists. eexists. split; [ apply read_frequency_ok; lra | ].
  cbn [pulse_count last_frequency].
  repeat split.
  - intros -> Ht. rewrite Ht. reflexivity.
  - intros ->. unfold Qdiv. apply Qmult_0_l.
Qed.

Lemma read_frequency_quotient_witness :
  exists (frequency : Q) (s' : MoistureSensor),
    read_frequency 2.0 (pulses 10) Sensor.init = (Ok frequency, s')
    /\ pulse_count s' = rising_edges (pulses 10)
    /\ frequency = inject_Z (pulse_count s') / 2.0
    /\ last_frequency s' = frequency
    /\ (rising_edges (pulses 10) = 10%Z -> 2.0 == 2 -> frequency == 5)
    /\ (rising_edges (pulses 10) = 0%Z -> frequency == 0).
Proof. apply (read_frequency_quotient 2.0 (pulses 10) Sensor.init). reflexivity. Defined.

Example read_frequency_10_over_2 :
  exists f, fst (read_frequency 2.0 (pulses 10) Sensor.init) = Ok f /\ f == 5.0.
Proof. eexists. split; [ vm_compute; reflexivity | reflexivity ]. Qed.

Example read_frequency_silent :
  exists f, fst (read_frequency 2.0 [Falling] Sensor.init) = Ok f /\ f == 0.
Proof. eexists. split; [ vm_compute; reflexivity | reflexivity ]. Qed.

End Measurement.

(** ** The conversion of a frequency to a moisture percentage *)

Module Conversion.
Import Py PyFacts Sensor SensorFacts Measurement.
Local Open Scope Q_scope.

(** With a valid calibration the final clamp changes nothing. *)
Lemma percent_valid (d w f : Q) :
  w < d ->
  exists p, percent_of_frequency d w f = Ok p
            /\ p == (d - max (min f d) w) / (d - w) * 100.
Proof.
  intros H. eexists. split; [ apply percent_regular; lra | ].
  apply clamp_id, ratio_bounds; [ exact H | apply clamped_range; lra ].
Qed.

(** C1. For every frequency and every pair of calibration values the
    conversion returns, without raising, a value between 0 and 100; so
    does the whole of [read_moisture_percent], whatever reaches the pin
    during its sampling window. *)
Theorem percent_total_bounded :
  (forall d w f : Q,
      exists p, percent_of_frequency d w f = Ok p /\ 0 <= p <= 100)
  /\ (forall (d w : Q) (window : list edge) (s : MoistureSensor),
      exists p s', read_moisture_percent d w window s = (Ok p, s')
                   /\ 0 <= p <= 100).
Proof.
  assert (forall d w f : Q,
             exists p, percent_of_frequency d w f = Ok p /\ 0 <= p <= 100) as Hpure.
  { intros d w f. destruct (Qeq_dec d w) as [E | E].
    - exists 0. split; [ apply percent_degenerate, E | lra ].
    - eexists. split; [ apply percent_regular, E | apply clamp_bounds ]. }
  split; [ exact Hpure | ].
  intros d w window s. unfold read_moisture_percent.
  rewrite read_frequency_ok by (unfold FREQUENCY_SAMPLE_TIME; lra).
  destruct (Hpure d w (inject_Z (rising_edges window) / FREQUENCY_SAMPLE_TIME))
    as (p & Hp & Hb).
  exists p. eexists. rewrite Hp. split; [ reflexivity | exact Hb ].
Qed.

(** C2. When the dry frequency is above the wet one the conversion is
    the reference algorithm: the frequency clamped into [[w, d]], then
    [(d - clamped) / (d - w) * 100].  With dry 27 and wet 5 a frequency
    of 16 gives 50, of 30 gives 0 and of 0 gives 100. *)
Theorem percent_matches_reference (d w f : Q) :
  w < d ->
  exists p, percent_of_frequency d w f = Ok p
            /\ p == reference_percent d w f
            /\ (d == 27 -> w == 5 ->
                (f == 16 -> p == 50) /\ (f == 30 -> p == 0) /\ (f == 0 -> p == 100)).
Proof.
  intros H. destruct (percent_valid d w f H) as (p & Hp & Hr).
  exists p. split; [ exact Hp | ]. split.
  - unfold reference_percent. rewrite <- min_is_Qmin, <- max_is_Qmax. exact Hr.
  - intros Hd Hw. rewrite Hr. repeat split; intros Hf.
    + rewrite (clamped_inside d w f) by lra. rewrite Hd, Hw, Hf. reflexivity.
    + destruct (min_cases f d) as [[H1 E1] | [H1 E1]]; [ | lra ].
      destruct (max_cases (min f d) w) as [[H2 E2] | [H2 E2]];
        rewrite E1 in *; [ lra | ].
      rewrite E2. apply ratio_at_dry, H.
    + destruct (max_cases (min f d) w) as [[H2 E2] | [H2 E2]].
      * rewrite E2. apply ratio_at_wet. lra.
      * destruct (min_cases f d) as [[H1 E1] | [H1 E1]]; rewrite E1 in *; lra.
Qed.

Lemma percent_matches_reference_witness :
  exists p, percent_of_frequency 27.0 5.0 16.0 = Ok p
            /\ p == reference_percent 27.0 5.0 16.0
            /\ (27.0 == 27 -> 5.0 == 5 ->
                (16.0 == 16 -> p == 50) /\ (16.0 == 30 -> p == 0)
                /\ (16.0 == 0 -> p == 100)).
Proof. apply (percent_matches_reference 27.0 5.0 16.0). reflexivity. Defined.

Example percent_midpoint :
  exists p, percent_of_frequency 27.0 5.0 16.0 = Ok p /\ p == 50.0.
Proof. eexists. split; [ vm_compute; reflexivity | reflexivity ]. Qed.

Example percent_above_dry : percent_of_frequency 27.0 5.0 30.0 = Ok 0.
Proof. vm_compute. reflexivity. Qed.

Example percent_below_wet : percent_of_frequency 27.0 5.0 0.0 = Ok 100.
Proof. vm_compute. reflexivity. Qed.

(** C3. With the wet frequency below the dry one, the conversion is
    antitone between the calibration points: for
    [wet <= f1 < f2 <= dry] the percentage of [f1] is at least that of
    [f2]. *)
Theorem percent_antitone (d w f1 f2 : Q) :
  w < d -> w <= f1 -> f1 < f2 -> f2 <= d ->
  exists p1 p2, percent_of_frequency d w f1 = Ok p1
                /\ percent_of_frequency d w f2 = Ok p2
                /\ p2 <= p1.
Proof.
  intros Hdw Hw Hlt Hd.
  destruct (percent_valid d w f1 Hdw) as (p1 & Hp1 & Hr1).
  destruct (percent_valid d w f2 Hdw) as (p2 & Hp2 & Hr2).
  exists p1, p2. split; [ exact Hp1 | ]. split; [ exact Hp2 | ].
  rewrite Hr1, Hr2.
  rewrite (clamped_inside d w f1), (clamped_inside d w f2) by lra.
  apply ratio_antitone; lra.
Qed.

Lemma percent_antitone_witness :
  exists p1 p2, percent_of_frequency 27.0 5.0 10.0 = Ok p1
                /\ percent_of_frequency 27.0 5.0 20.0 = Ok p2
                /\ p2 <= p1.
Proof.
  apply (percent_antitone 27.0 5.0 10.0 20.0); vm_compute; congruence.
Defined.

(** C4. With equal dry and wet frequencies the conversion returns 0 for
    every frequency and no division takes place: neither the conversion
    nor the whole of [read_moisture_percent] raises. *)
Theorem percent_degenerate_zero (d w f : Q) :
  d == w ->
  percent_of_frequency d w f = Ok 0
  /\ (forall (window : list edge) (s : MoistureSensor),
       fst (read_moisture_percent d w window s) = Ok 0).
Proof.
  intros H. split; [ apply percent_degenerate, H | ].
  intros window s. unfold read_moisture_percent.
  rewrite read_frequency_ok by (unfold FREQUENCY_SAMPLE_TIME; lra).
  cbn [fst]. apply percent_degenerate, H.
Qed.

Lemma percent_degenerate_zero_witness :
  percent_of_frequency 5.0 5 12.5 = Ok 0
  /\ (forall (window : list edge) (s : MoistureSensor),
       fst (read_moisture_percent 5.0 5 window s) = Ok 0).
Proof. apply (percent_degenerate_zero 5.0 5 12.5). reflexivity. Defined.

(** C9. With an inverted calibration (dry below wet) the first clamp
    yields the wet frequency whatever was measured, and the conversion
    returns 100 for every frequency instead of raising. *)
Theorem percent_inverted_constant (d w f : Q) :
  d < w ->
  max (min f d) w = w /\ percent_of_frequency d w f = Ok 100.
Proof.
  intros H. split; [ apply clamped_inverted, H | ].
  rewrite percent_regular by lra. rewrite clamped_inverted by exact H.
  f_equal.
  destruct (min_cases 100 ((d - w) / (d - w) * 100)) as [[H1 E1] | [H1 E1]].
  - rewrite ratio_at_wet in H1 by lra. lra.
  - rewrite E1. reflexivity.
Qed.

Lemma percent_inverted_constant_witness :
  max (min 16.0 5.0) 10.0 = 10.0 /\ percent_of_frequency 5.0 10.0 16.0 = Ok 100.
Proof. apply (percent_inverted_constant 5.0 10.0 16.0). reflexivity. Defined.

End Conversion.

(** ** Loading the configuration *)

Module Persistence.
Import Py IO Config.

Lemma files_save (self : Configuration) (w : world) :
  files (save self w) =
    <[filename self :=
        Document (JDict {[ "dry_freq" := dry_freq self; "wet_freq" := wet_freq self ]})]>
      (files w).
Proof. reflexivity. Qed.

(** When the [try] of [load] raises, the object keeps its values and is
    saved. *)
Lemma load_raise (self : Configuration) (w : world) (e : exn) :
  load_try self w = Raise e ->
  fst (load self w) = self
  /\ files (snd (load self w)) =
       <[filename self :=
           Document (JDict {[ "dry_freq" := dry_freq self; "wet_freq" := wet_freq self ]})]>
         (files w).
Proof. intros H. unfold load. rewrite H. split; reflexivity. Qed.

(** When it returns, the object is replaced and no file is written. *)
Lemma load_return (self self' : Configuration) (w : world) :
  load_try self w = Ok self' ->
  fst (load self w) = self' /\ files (snd (load self w)) = files w.
Proof. intros H. unfold load. rewrite H. split; reflexivity. Qed.

(** A document that is not an object is treated like a missing file:
    [data.get] raises and the defaults are kept and written. *)
Lemma load_try_not_dict (self : Configuration) (w : world) (v : json) :
  files w !! filename self = Some (Document v) ->
  (forall members, v <> JDict members) ->
  load_try self w = Raise AttributeError.
Proof.
  intros Hfile Hv. unfold load_try, load_json. rewrite Hfile. cbn [bind].
  destruct v; try reflexivity. exfalso. eapply Hv. reflexivity.
Qed.

(** C7. When the configuration file is absent, or its text is not
    valid JSON, the configuration created at startup holds the default
    calibration, dry 27.0 and wet 5.0, and a fresh file with these
    defaults is written under the configured name. *)
Theorem init_without_file_defaults (name : string) (w : world) :
  files w !! name = None \/ (exists text, files w !! name = Some (Malformed text)) ->
  dry_freq (fst (init name w)) = JNum 27.0
  /\ wet_freq (fst (init name w)) = JNum 5.0
  /\ files (snd (init name w)) = <[name := default_document]> (files w)
  /\ files (snd (init name w)) !! name = Some default_document.
Proof.
  intros Hfile. unfold init.
  set (self := {| filename := name; dry_freq := JNum 27.0; wet_freq := JNum 5.0 |}).
  assert (exists e, load_try self w = Raise e) as [e He].
  { unfold load_try, load_json. cbn [filename self].
    destruct Hfile as [-> | [text ->]]; eexists; reflexivity. }
  destruct (load_raise self w e He) as [Hself Hfiles].
  rewrite Hself, Hfiles. cbn [filename dry_freq wet_freq self].
  repeat split. apply lookup_insert_eq.
Qed.

Lemma init_without_file_defaults_witness :
  dry_freq (fst (init CONFIG_FILE blank)) = JNum 27.0
  /\ wet_freq (fst (init CONFIG_FILE blank)) = JNum 5.0
  /\ files (snd (init CONFIG_FILE blank)) = <[CONFIG_FILE := default_document]> (files blank)
  /\ files (snd (init CONFIG_FILE blank)) !! CONFIG_FILE = Some default_document.
Proof. apply (init_without_file_defaults CONFIG_FILE blank). left. reflexivity. Defined.

(** C10. When the file holds a JSON object, each of the two fields is
    taken from the object if the key is there and is its default (27.0
    for [dry_freq], 5.0 for [wet_freq]) if not, independently of the
    other; and, unlike with a missing file, no file is written. *)
Theorem init_partial_document (name : string) (w : world)
    (members : gmap string json) :
  files w !! name = Some (Document (JDict members)) ->
  dry_freq (fst (init name w)) = default (JNum 27.0) (members !! "dry_freq")
  /\ wet_freq (fst (init name w)) = default (JNum 5.0) (members !! "wet_freq")
  /\ files (snd (init name w)) = files w.
Proof.
  intros Hfile. unfold init.
  set (self := {| filename := name; dry_freq := JNum 27.0; wet_freq := JNum 5.0 |}).
  assert (load_try self w =
            Ok {| filename := name;
                  dry_freq := default (JNum 27.0) (members !! "dry_freq");
                  wet_freq := default (JNum 5.0) (members !! "wet_freq") |}) as Htry.
  { unfold load_try, load_json. cbn [filename self]. rewrite Hfile.
    cbn [bind get].
    destruct (members !! "dry_freq"), (members !! "wet_freq"); reflexivity. }
  destruct (load_return self _ w Htry) as [Hself Hfiles].
  rewrite Hself, Hfiles. repeat split.
Qed.

Lemma init_partial_document_witness :
  dry_freq (fst (init CONFIG_FILE hand_edited)) =
    default (JNum 27.0) (({[ "wet_freq" := JNum 3.5 ]} : gmap string json) !! "dry_freq")
  /\ wet_freq (fst (init CONFIG_FILE hand_edited)) =
    default (JNum 5.0) (({[ "wet_freq" := JNum 3.5 ]} : gmap string json) !! "wet_freq")
  /\ files (snd (init CONFIG_FILE hand_edited)) = files hand_edited.
Proof.
  apply (init_partial_document CONFIG_FILE hand_edited {[ "wet_freq" := JNum 3.5 ]}).
  reflexivity.
Defined.

Example init_missing_dry :
  dry_freq (fst (init CONFIG_FILE hand_edited)) = JNum 27.0
  /\ wet_freq (fst (init CONFIG_FILE hand_edited)) = JNum 3.5
  /\ snd (init CONFIG_FILE hand_edited) =
       emit [Print [T "Loaded config: dry="; V (JNum 27.0);
                    T "Hz, wet="; V (JNum 3.5); T "Hz"]] hand_edited.
Proof. repeat split. Qed.

Example init_blank :
  snd (init CONFIG_FILE blank) =
    {| files := {[ CONFIG_FILE := default_document ]};
       trace := [Print [T "No config file found, using defaults"];
                 Print [T "Saved config: dry="; V (JNum 27.0);
                        T "Hz, wet="; V (JNum 5.0); T "Hz"]] |}.
Proof. reflexivity. Qed.

End Persistence.

(** ** The calibration script *)

Module Calibration.
Import Py PyFacts IO Sensor Measurement Calibrate.
Local Open Scope Q_scope.

(** *** Output only adds to the trace and leaves the files alone *)

Lemma extends_refl (w : world) : extends w w.
Proof. exists []. symmetry. apply app_nil_r. Qed.

Lemma extends_trans (w1 w2 w3 : world) :
  extends w1 w2 -> extends w2 w3 -> extends w1 w3.
Proof.
  intros [es1 H1] [es2 H2]. exists (es1 ++ es2).
  rewrite H2, H1. symmetry. apply app_assoc.
Qed.

Lemma extends_in (w w' : world) (e : event) :
  extends w w' -> In e (trace w) -> In e (trace w').
Proof. intros [es H] Hin. rewrite H. apply in_or_app. left. exact Hin. Qed.

Lemma extends_emit (es : list event) (w : world) : extends w (emit es w).
Proof. exists es. reflexivity. Qed.

Lemma extends_show_message (l1 l2 l3 l4 : line) (w : world) :
  extends w (show_message l1 l2 l3 l4 w).
Proof. apply extends_emit. Qed.

Lemma extends_countdown_timer (message : string) (seconds : nat) :
  forall w : world, extends w (countdown_timer seconds message w).
Proof.
  induction seconds as [ | rest IH ]; intros w.
  - apply extends_refl.
  - cbn [countdown_timer].
    eapply extends_trans; [ | apply IH ].
    eapply extends_trans; [ apply extends_show_message | apply extends_emit ].
Qed.

Lemma extends_save_config (dry_freq wet_freq : Q) (w : world) :
  extends w (save_config dry_freq wet_freq w).
Proof. eexists. reflexivity. Qed.

Lemma extends_summary (dry_freq wet_freq : Q) (w : world) :
  extends w (summary dry_freq wet_freq w).
Proof.
  unfold summary.
  eapply extends_trans; [ | apply extends_emit ].
  eapply extends_trans; [ apply extends_emit | apply extends_show_message ].
Qed.

Lemma files_emit (es : list event) (w : world) : files (emit es w) = files w.
Proof. reflexivity. Qed.

Lemma files_show_message (l1 l2 l3 l4 : line) (w : world) :
  files (show_message l1 l2 l3 l4 w) = files w.
Proof. reflexivity. Qed.

Lemma files_countdown_timer (message : string) (seconds : nat) :
  forall w : world, files (countdown_timer seconds message w) = files w.
Proof.
  induction seconds as [ | rest IH ]; intros w; [ reflexivity | ].
  cbn [countdown_timer]. rewrite IH. reflexivity.
Qed.

Lemma files_summary (dry_freq wet_freq : Q) (w : world) :
  files (summary dry_freq wet_freq w) = files w.
Proof. reflexivity. Qed.

Lemma files_save_config (dry_freq wet_freq : Q) (w : world) :
  files (save_config dry_freq wet_freq w) =
    <[CONFIG_FILE :=
        Document (JDict {[ "dry_freq" := JNum dry_freq; "wet_freq" := JNum wet_freq ]})]>
      (files w).
Proof. reflexivity. Qed.

(** Peels the operations of a chain one by one, from the last. *)
Ltac extends_step :=
  lazymatch goal with
  | |- extends ?w ?w => apply extends_refl
  | |- extends _ (emit _ ?w') =>
      apply (extends_trans _ w'); [ | apply extends_emit ]
  | |- extends _ (show_message _ _ _ _ ?w') =>
      apply (extends_trans _ w'); [ | apply extends_show_message ]
  | |- extends _ (countdown_timer _ _ ?w') =>
      apply (extends_trans _ w'); [ | apply extends_countdown_timer ]
  | |- extends _ (save_config _ _ ?w') =>
      apply (extends_trans _ w'); [ | apply extends_save_config ]
  | |- extends _ (summary _ _ ?w') =>
      apply (extends_trans _ w'); [ | apply extends_summary ]
  end.
Ltac extends_chain := repeat extends_step.

(** *** The two measurements *)

Lemma step1_measures (window : list edge) (sensor sensor' : MoistureSensor)
    (w : world) (dry_freq : Q) :
  read_frequency SAMPLE_TIME window sensor = (Ok dry_freq, sensor') ->
  exists w', step1 window sensor w = (Ok dry_freq, sensor', w')
             /\ files w' = files w /\ extends w w'.
Proof.
  intros H. unfold step1. rewrite H. eexists. split; [ reflexivity | ]. split.
  - repeat first [ rewrite files_countdown_timer
                 | rewrite files_show_message
                 | rewrite files_emit ].
    reflexivity.
  - extends_chain.
Qed.

Lemma step2_measures (window : list edge) (sensor sensor' : MoistureSensor)
    (w : world) (wet_freq : Q) :
  read_frequency SAMPLE_TIME window sensor = (Ok wet_freq, sensor') ->
  exists w', step2 window sensor w = (Ok wet_freq, sensor', w')
             /\ files w' = files w /\ extends w w'.
Proof.
  intros H. unfold step2. rewrite H. eexists. split; [ reflexivity | ]. split.
  - repeat first [ rewrite files_countdown_timer
                 | rewrite files_show_message
                 | rewrite files_emit ].
    reflexivity.
  - extends_chain.
Qed.

(** A measurement of the script never raises: its window is 3 seconds. *)
Lemma measurement_returns (window : list edge) (sensor : MoistureSensor) :
  exists f sensor', read_frequency SAMPLE_TIME window sensor = (Ok f, sensor').
Proof.
  eexists. eexists. apply read_frequency_ok. unfold SAMPLE_TIME. lra.
Qed.

(** The script runs to its end whatever reaches the pin. *)
Lemma main_returns (dry_window wet_window : list edge) (w : world) :
  exists w', main dry_window wet_window w = (Ok tt, w').
Proof.
  destruct (measurement_returns dry_window Sensor.init) as (dry_freq & s1 & H1).
  destruct (measurement_returns wet_window s1) as (wet_freq & s2 & H2).
  unfold main. cbv zeta.
  edestruct (step1_measures dry_window Sensor.init s1) as (w1 & E1 & _);
    [ exact H1 | ].
  rewrite E1.
  edestruct (step2_measures wet_window s1 s2 w1) as (w2 & E2 & _);
    [ exact H2 | ].
  rewrite E2. eexists. reflexivity.
Qed.

(** *** Validation and save *)

Lemma in_emit_new (e : event) (es : list event) (w : world) :
  In e es -> In e (trace (emit es w)).
Proof. intros H. cbn [trace emit]. apply in_or_app. right. exact H. Qed.

Lemma in_emit_old (e : event) (es : list event) (w : world) :
  In e (trace w) -> In e (trace (emit es w)).
Proof. apply extends_in, extends_emit. Qed.

(** Finds an event in the trace of a chain of operations. *)
Ltac in_list := solve [ repeat first [ left; reflexivity | right ] ].
Ltac trace_in :=
  lazymatch goal with
  | |- In _ (trace (emit _ _)) =>
      first [ apply in_emit_new; in_list | apply in_emit_old; trace_in ]
  | |- In _ (trace (show_message _ _ _ _ _)) =>
      first [ apply in_emit_new; in_list | apply in_emit_old; trace_in ]
  | |- In _ (trace (save_config _ _ _)) =>
      eapply extends_in; [ apply extends_save_config | trace_in ]
  | |- In _ (trace (summary _ _ _)) =>
      eapply extends_in; [ apply extends_summary | trace_in ]
  | |- In _ (trace (countdown_timer _ _ _)) =>
      eapply extends_in; [ apply extends_countdown_timer | trace_in ]
  | _ => assumption
  end.

(** Frequencies with the wet one not below the dry one: the error is
    reported and nothing is written. *)
Lemma validate_rejected (dry_freq wet_freq : Q) (w : world) :
  dry_freq <= wet_freq ->
  files (validate_and_save dry_freq wet_freq w) = files w
  /\ extends w (validate_and_save dry_freq wet_freq w)
  /\ In error_screen (trace (validate_and_save dry_freq wet_freq w)).
Proof.
  intros H. unfold validate_and_save.
  assert (ge wet_freq dry_freq = true) as ->
    by (unfold ge; apply lt_false in H; rewrite H; reflexivity).
  split; [ reflexivity | ]. split; [ extends_chain | trace_in ].
Qed.

(** Frequencies with the wet one below the dry one: both are written,
    after a warning for each that is out of its expected range. *)
Lemma validate_accepted (dry_freq wet_freq : Q) (w : world) :
  wet_freq < dry_freq ->
  files (validate_and_save dry_freq wet_freq w) =
    <[CONFIG_FILE :=
        Document (JDict {[ "dry_freq" := JNum dry_freq; "wet_freq" := JNum wet_freq ]})]>
      (files w)
  /\ extends w (validate_and_save dry_freq wet_freq w)
  /\ (dry_freq < 15 ->
      In low_dry_warning (trace (validate_and_save dry_freq wet_freq w))
      /\ In low_dry_screen (trace (validate_and_save dry_freq wet_freq w)))
  /\ (10 < wet_freq ->
      In high_wet_warning (trace (validate_and_save dry_freq wet_freq w))
      /\ In high_wet_screen (trace (validate_and_save dry_freq wet_freq w))).
Proof.
  intros H. unfold validate_and_save.
  assert (ge wet_freq dry_freq = false) as ->
    by (unfold ge; apply lt_true in H; rewrite H; reflexivity).
  split; [ | split; [ | split ] ].
  - destruct (lt dry_freq 15), (gt wet_freq 10); reflexivity.
  - destruct (lt dry_freq 15), (gt wet_freq 10); extends_chain.
  - intros Hlow. apply lt_true in Hlow. rewrite Hlow.
    destruct (gt wet_freq 10); split; trace_in.
  - intros Hhigh. apply lt_true in Hhigh. unfold gt. rewrite Hhigh.
    split; trace_in.
Qed.

(** C6. When a calibration run measures a wet frequency that is not
    below the dry one, the script reports the error on the display and
    returns without writing: every file, the persisted configuration
    among them, is as it was before the run. *)
Theorem inverted_calibration_not_saved (dry_window wet_window : list edge)
    (w : world) (dry_freq wet_freq : Q) (s1 s2 : MoistureSensor) :
  read_frequency SAMPLE_TIME dry_window Sensor.init = (Ok dry_freq, s1) ->
  read_frequency SAMPLE_TIME wet_window s1 = (Ok wet_freq, s2) ->
  dry_freq <= wet_freq ->
  exists w', main dry_window wet_window w = (Ok tt, w')
             /\ files w' = files w
             /\ files w' !! CONFIG_FILE = files w !! CONFIG_FILE
             /\ extends w w'
             /\ In error_screen (trace w').
Proof.
  intros Hdry Hwet Hinv. unfold main. cbv zeta.
  edestruct (step1_measures dry_window Sensor.init s1) as (w1 & E1 & F1 & X1);
    [ exact Hdry | ].
  rewrite E1.
  edestruct (step2_measures wet_window s1 s2 w1) as (w2 & E2 & F2 & X2);
    [ exact Hwet | ].
  rewrite E2.
  destruct (validate_rejected dry_freq wet_freq w2 Hinv) as (F3 & X3 & I3).
  eexists. split; [ reflexivity | ].
  assert (files (validate_and_save dry_freq wet_freq w2) = files w) as Hfiles.
  { rewrite F3, F2, F1. reflexivity. }
  split; [ exact Hfiles | ]. split; [ rewrite Hfiles; reflexivity | ].
  split; [ | exact I3 ].
  eapply extends_trans; [ | exact X3 ].
  eapply extends_trans; [ | exact X2 ].
  eapply extends_trans; [ | exact X1 ].
  extends_chain.
Qed.

Lemma inverted_calibration_not_saved_witness :
  exists w', main (pulses 15) (pulses 30) calibrated = (Ok tt, w')
             /\ files w' = files calibrated
             /\ files w' !! CONFIG_FILE = files calibrated !! CONFIG_FILE
             /\ extends calibrated w'
             /\ In error_screen (trace w').
Proof.
  apply (inverted_calibration_not_saved (pulses 15) (pulses 30) calibrated
           (15 # 3) (30 # 3)
           {| pulse_count := 15; last_frequency := 15 # 3; irq_rising := false |}
           {| pulse_count := 30; last_frequency := 30 # 3; irq_rising := false |}).
  - vm_compute. reflexivity.
  - vm_compute. reflexivity.
  - vm_compute. discriminate.
Defined.

(** A run that measures 5 Hz dry and 10 Hz wet leaves the persisted
    defaults in place. *)
Example inverted_5_10 :
  15 # 3 == 5.0 /\ 30 # 3 == 10.0
  /\ files (snd (main (pulses 15) (pulses 30) calibrated)) !! CONFIG_FILE
     = Some Config.default_document.
Proof. repeat split. Qed.

(** C8. When the measured dry frequency is above the wet one, both are
    written to the configuration file, also when the dry one is below
    15 Hz or the wet one above 10 Hz; in these cases the operator is
    warned first, on the console and on the display. *)
Theorem doubtful_calibration_warned_and_saved (dry_window wet_window : list edge)
    (w : world) (dry_freq wet_freq : Q) (s1 s2 : MoistureSensor) :
  read_frequency SAMPLE_TIME dry_window Sensor.init = (Ok dry_freq, s1) ->
  read_frequency SAMPLE_TIME wet_window s1 = (Ok wet_freq, s2) ->
  wet_freq < dry_freq ->
  exists w', main dry_window wet_window w = (Ok tt, w')
             /\ files w' =
                  <[CONFIG_FILE :=
                      Document (JDict {[ "dry_freq" := JNum dry_freq;
                                         "wet_freq" := JNum wet_freq ]})]>
                    (files w)
             /\ (dry_freq < 15 ->
                 In low_dry_warning (trace w') /\ In low_dry_screen (trace w'))
             /\ (10 < wet_freq ->
                 In high_wet_warning (trace w') /\ In high_wet_screen (trace w')).
Proof.
  intros Hdry Hwet Hvalid. unfold main. cbv zeta.
  edestruct (step1_measures dry_window Sensor.init s1) as (w1 & E1 & F1 & X1);
    [ exact Hdry | ].
  rewrite E1.
  edestruct (step2_measures wet_window s1 s2 w1) as (w2 & E2 & F2 & X2);
    [ exact Hwet | ].
  rewrite E2.
  destruct (validate_accepted dry_freq wet_freq w2 Hvalid) as (F3 & X3 & Wd & Ww).
  eexists. split; [ reflexivity | ].
  split; [ rewrite F3, F2, F1; reflexivity | ].
  split; assumption.
Qed.

Lemma doubtful_calibration_warned_and_saved_witness :
  exists w', main (pulses 42) (pulses 33) calibrated = (Ok tt, w')
             /\ files w' =
                  <[CONFIG_FILE :=
                      Document (JDict {[ "dry_freq" := JNum (42 # 3);
                                         "wet_freq" := JNum (33 # 3) ]})]>
                    (files calibrated)
             /\ (42 # 3 < 15 ->
                 In low_dry_warning (trace w') /\ In low_dry_screen (trace w'))
             /\ (10 < 33 # 3 ->
                 In high_wet_warning (trace w') /\ In high_wet_screen (trace w')).
Proof.
  apply (doubtful_calibration_warned_and_saved (pulses 42) (pulses 33) calibrated
           (42 # 3) (33 # 3)
           {| pulse_count := 42; last_frequency := 42 # 3; irq_rising := false |}
           {| pulse_count := 33; last_frequency := 33 # 3; irq_rising := false |}).
  - vm_compute. reflexivity.
  - vm_compute. reflexivity.
  - vm_compute. reflexivity.
Defined.

(** A run that measures 14 Hz dry and 11 Hz wet overwrites the
    persisted defaults with these two values. *)
Example doubtful_14_11 :
  42 # 3 == 14.0 /\ 33 # 3 == 11.0
  /\ files (snd (main (pulses 42) (pulses 33) calibrated)) !! CONFIG_FILE
     = Some (Document (JDict {[ "dry_freq" := JNum (42 # 3);
                                "wet_freq" := JNum (33 # 3) ]})).
Proof. repeat split. Qed.

End Calibration.

(** ** The moisture icon *)

Module Icons.
Import Py PyFacts Display.
Local Open Scope Q_scope.

(** The thresholds of [get_icon_for_moisture]. *)
Lemma icon_empty_iff (m : Q) : get_icon_for_moisture m = icon_empty <-> m < 34.
Proof.
  unfold get_icon_for_moisture.
  destruct (lt m 34) eqn:E34.
  - apply lt_true in E34. split; [ intros _; exact E34 | reflexivity ].
  - apply lt_false in E34.
    destruct (lt m 67); (split; [ discriminate | lra ]).
Qed.

Lemma icon_full_iff (m : Q) : get_icon_for_moisture m = icon_full <-> 67 <= m.
Proof.
  unfold get_icon_for_moisture.
  destruct (lt m 34) eqn:E34.
  - apply lt_true in E34. split; [ discriminate | lra ].
  - destruct (lt m 67) eqn:E67.
    + apply lt_true in E67. split; [ discriminate | lra ].
    + apply lt_false in E67. split; [ intros _; exact E67 | reflexivity ].
Qed.

(** X5. The icon drawn on the display is the one the monitoring loop names
    on the console, for every reading: the two copies of the thresholds
    (34 and 67) agree, a reading of exactly 34 being a half drop and one
    of exactly 67 a full drop in both. *)
Theorem icon_matches_name (moisture : Q) :
  (get_icon_for_moisture moisture = icon_empty /\ icon_name moisture = "EMPTY"
   /\ moisture < 34)
  \/ (get_icon_for_moisture moisture = icon_half /\ icon_name moisture = "HALF"
      /\ 34 <= moisture /\ moisture < 67)
  \/ (get_icon_for_moisture moisture = icon_full /\ icon_name moisture = "FULL"
      /\ 67 <= moisture).
Proof.
  unfold get_icon_for_moisture, icon_name.
  destruct (lt moisture 34) eqn:E34.
  - left. apply lt_true in E34. repeat split. exact E34.
  - apply lt_false in E34. destruct (lt moisture 67) eqn:E67.
    + right. left. apply lt_true in E67. repeat split; assumption.
    + right. right. apply lt_false in E67. repeat split. exact E67.
Qed.

End Icons.

(** ** More on the conversion: saturation, monotonicity, units *)

Module Readings.
Import Py PyFacts Sensor SensorFacts Measurement Conversion Display Icons.
Local Open Scope Q_scope.


Lemma clamp_high (x : Q) : 100 <= x -> max 0 (min 100 x) = 100.
Proof.
  intros H.
  destruct (min_cases 100 x) as [[H1 ->] | [H1 ->]]; [ lra | ].
  destruct (max_cases 0 100) as [[H2 ->] | [H2 ->]]; [ reflexivity | lra ].
Qed.

(** The first clamp is monotone in the frequency. *)
Lemma clamped_monotone (d w f1 f2 : Q) :
  f1 <= f2 -> max (min f1 d) w <= max (min f2 d) w.
Proof.
  intros H.
  destruct (min_cases f1 d) as [[A1 ->] | [A1 ->]];
    destruct (min_cases f2 d) as [[A2 ->] | [A2 ->]];
    match goal with
    | |- max ?a w <= max ?b w =>
        destruct (max_cases a w) as [[B1 E1] | [B1 E1]];
        destruct (max_cases b w) as [[B2 E2] | [B2 E2]];
        rewrite ?E1, ?E2
    end; lra.
Qed.



(** With the dry frequency below the wet one every frequency converts to
    100. *)
Lemma percent_inverted (d w f : Q) :
  d < w -> percent_of_frequency d w f = Ok 100.
Proof.
  intros H. rewrite percent_regular by lra. f_equal. apply clamp_high.
  rewrite (clamped_inverted d w f H), ratio_at_wet by lra. lra.
Qed.



(** X2. Monotonicity everywhere.  Whatever the calibration (valid, degenerate
    or inverted) and wherever the two frequencies lie, a higher frequency
    never gives a higher percentage, and so never a fuller drop on the
    display. *)
Theorem percent_antitone_everywhere (d w f1 f2 : Q) :
  f1 <= f2 ->
  exists p1 p2, percent_of_frequency d w f1 = Ok p1
                /\ percent_of_frequency d w f2 = Ok p2
                /\ p2 <= p1
                /\ (get_icon_for_moisture p1 = icon_empty ->
                    get_icon_for_moisture p2 = icon_empty)
                /\ (get_icon_for_moisture p2 = icon_full ->
                    get_icon_for_moisture p1 = icon_full).
Proof.
  intros Hf.
  assert (exists p1 p2, percent_of_frequency d w f1 = Ok p1
                        /\ percent_of_frequency d w f2 = Ok p2
                        /\ p2 <= p1) as (p1 & p2 & Hp1 & Hp2 & Hle).
  { destruct (Q_dec w d) as [[Hlt | Hgt] | Heq].
    - destruct (percent_valid d w f1 Hlt) as (p1 & Hp1 & Hr1).
      destruct (percent_valid d w f2 Hlt) as (p2 & Hp2 & Hr2).
      exists p1, p2. split; [ exact Hp1 | ]. split; [ exact Hp2 | ].
      rewrite Hr1, Hr2. apply ratio_antitone; [ exact Hlt | ].
      apply clamped_monotone, Hf.
    - exists 100, 100.
      split; [ apply (percent_inverted d w f1 Hgt) | ].
      split; [ apply (percent_inverted d w f2 Hgt) | lra ].
    - exists 0, 0.
      split; [ apply percent_degenerate; symmetry; exact Heq | ].
      split; [ apply percent_degenerate; symmetry; exact Heq | lra ]. }
  exists p1, p2. split; [ exact Hp1 | ]. split; [ exact Hp2 | ].
  split; [ exact Hle | ]. split.
  - rewrite !icon_empty_iff. lra.
  - rewrite !icon_full_iff. lra.
Qed.

Lemma percent_antitone_everywhere_witness :
  exists p1 p2, percent_of_frequency 27.0 5.0 2.0 = Ok p1
                /\ percent_of_frequency 27.0 5.0 40.0 = Ok p2
                /\ p2 <= p1
                /\ (get_icon_for_moisture p1 = icon_empty ->
                    get_icon_for_moisture p2 = icon_empty)
                /\ (get_icon_for_moisture p2 = icon_full ->
                    get_icon_for_moisture p1 = icon_full).
Proof. apply (percent_antitone_everywhere 27.0 5.0 2.0 40.0). vm_compute. discriminate. Defined.






End Readings.

(** ** More on the measurement: reset, release, zero window *)

Module Pulses.
Import Py PyFacts Sensor SensorFacts Measurement.
Local Open Scope Q_scope.

(** Counting pulses leaves the last frequency alone. *)
Lemma sleep_last_frequency (window : list edge) : forall s : MoistureSensor,
  last_frequency (sleep window s) = last_frequency s.
Proof.
  induction window as [ | e rest IH ]; intros s; [ reflexivity | ].
  cbn [sleep fold_left]. unfold sleep in IH. rewrite IH.
  destruct e; [ | reflexivity ].
  cbn [dispatch]. destruct (irq_rising s); reflexivity.
Qed.

(** A sampling window of length zero: the pulses are counted, the handler
    is released, and the division raises. *)
Lemma read_frequency_raises (sample_time : Q) (window : list edge) (s : MoistureSensor) :
  sample_time == 0 ->
  read_frequency sample_time window s =
    (Raise ZeroDivisionError,
     {| pulse_count := rising_edges window;
        last_frequency := last_frequency s;
        irq_rising := false |}).
Proof.
  intros H. unfold read_frequency. cbn [pulse_count last_frequency irq_rising].
  rewrite sleep_counts by reflexivity. cbn [pulse_count].
  rewrite Z.add_0_l, truediv_zero by exact H.
  rewrite sleep_last_frequency. reflexivity.
Qed.

(** X6. Reset.  A measurement starts from zero: what it returns, and the count
    it leaves, depend on the window and its length only, not on the count
    or the frequency left by an earlier measurement. *)
Theorem read_frequency_ignores_history (sample_time : Q) (window : list edge)
    (s s' : MoistureSensor) :
  fst (read_frequency sample_time window s) = fst (read_frequency sample_time window s')
  /\ pulse_count (snd (read_frequency sample_time window s)) = rising_edges window
  /\ pulse_count (snd (read_frequency sample_time window s')) = rising_edges window.
Proof.
  destruct (Qeq_dec sample_time 0) as [E | E].
  - rewrite !read_frequency_raises by exact E. repeat split.
  - rewrite !read_frequency_ok by exact E. repeat split.
Qed.


(** X8. Zero window.  With a sample time of zero [read_frequency] raises
    [ZeroDivisionError]; the pulses of the window have been counted and
    the handler released, and the last frequency is the one of the
    previous measurement. *)
Theorem read_frequency_zero_sample_time (sample_time : Q) (window : list edge)
    (s : MoistureSensor) :
  sample_time == 0 ->
  fst (read_frequency sample_time window s) = Raise ZeroDivisionError
  /\ last_frequency (snd (read_frequency sample_time window s)) = last_frequency s
  /\ pulse_count (snd (read_frequency sample_time window s)) = rising_edges window
  /\ irq_rising (snd (read_frequency sample_time window s)) = false.
Proof.
  intros H. rewrite read_frequency_raises by exact H. repeat split.
Qed.

Lemma read_frequency_zero_sample_time_witness :
  fst (read_frequency 0 (pulses 4) Sensor.init) = Raise ZeroDivisionError
  /\ last_frequency (snd (read_frequency 0 (pulses 4) Sensor.init))
     = last_frequency Sensor.init
  /\ pulse_count (snd (read_frequency 0 (pulses 4) Sensor.init))
     = rising_edges (pulses 4)
  /\ irq_rising (snd (read_frequency 0 (pulses 4) Sensor.init)) = false.
Proof. apply (read_frequency_zero_sample_time 0 (pulses 4) Sensor.init). reflexivity. Defined.

(** X9. The reading that the monitoring loop shows.  [read_moisture_percent]
    always returns; the frequency it leaves in [last_frequency], which the
    loop prints and displays beside the percentage, is the number of
    rising edges over 2 seconds, is not negative, and is the frequency the
    percentage was converted from. *)
Theorem read_moisture_percent_coherent (dry_freq wet_freq : Q) (window : list edge)
    (s : MoistureSensor) :
  exists p s', read_moisture_percent dry_freq wet_freq window s = (Ok p, s')
               /\ percent_of_frequency dry_freq wet_freq (last_frequency s') = Ok p
               /\ last_frequency s' = inject_Z (rising_edges window) / 2
               /\ 0 <= last_frequency s'.
Proof.
  unfold read_moisture_percent.
  rewrite read_frequency_ok by (unfold FREQUENCY_SAMPLE_TIME; lra).
  unfold FREQUENCY_SAMPLE_TIME.
  destruct (Qeq_dec dry_freq wet_freq) as [E | E].
  - exists 0. eexists. rewrite percent_degenerate by exact E.
    split; [ reflexivity | ]. cbn [last_frequency].
    split; [ apply percent_degenerate, E | ]. split; [ reflexivity | ].
    apply Qle_shift_div_l; [ lra | ]. rewrite Qmult_0_l.
    change (inject_Z 0 <= inject_Z (rising_edges window)).
    rewrite <- Zle_Qle. apply rising_edges_nonneg.
  - eexists. eexists. rewrite percent_regular by exact E.
    split; [ reflexivity | ]. cbn [last_frequency].
    split; [ apply percent_regular, E | ]. split; [ reflexivity | ].
    apply Qle_shift_div_l; [ lra | ]. rewrite Qmult_0_l.
    change (inject_Z 0 <= inject_Z (rising_edges window)).
    rewrite <- Zle_Qle. apply rising_edges_nonneg.
Qed.

End Pulses.

(** ** More on the configuration: round trip, restart, other files *)

Module Startup.
Import Py IO Config Persistence.

(** Loading looks at the files only, not at what was printed. *)
Lemma load_try_emit (self : Configuration) (es : list event) (w : world) :
  load_try self (emit es w) = load_try self w.
Proof. reflexivity. Qed.

(** Loading from a file that holds an object. *)
Lemma load_try_document (self : Configuration) (w : world)
    (members : gmap string json) :
  files w !! filename self = Some (Document (JDict members)) ->
  load_try self w =
    Ok {| filename := filename self;
          dry_freq := default (JNum 27.0) (members !! "dry_freq");
          wet_freq := default (JNum 5.0) (members !! "wet_freq") |}.
Proof.
  intros Hfile. unfold load_try, load_json. rewrite Hfile. cbn [bind get].
  destruct (members !! "dry_freq"), (members !! "wet_freq"); reflexivity.
Qed.

(** What [save] writes holds both values under their keys. *)
Lemma saved_members (dry wet : json) :
  ({[ "dry_freq" := dry; "wet_freq" := wet ]} : gmap string json) !! "dry_freq" = Some dry
  /\ ({[ "dry_freq" := dry; "wet_freq" := wet ]} : gmap string json) !! "wet_freq" = Some wet.
Proof. split; reflexivity. Qed.

(** X10. Round trip.  A configuration created from the file that [save] wrote
    has the two values that were saved, whatever they are, and creating
    it writes nothing. *)
Theorem save_init_round_trip (self : Configuration) (w : world) :
  dry_freq (fst (init (filename self) (save self w))) = dry_freq self
  /\ wet_freq (fst (init (filename self) (save self w))) = wet_freq self
  /\ files (snd (init (filename self) (save self w))) = files (save self w).
Proof.
  unfold init.
  set (fresh := {| filename := filename self; dry_freq := JNum 27.0;
                   wet_freq := JNum 5.0 |}).
  assert (files (save self w) !! filename fresh
          = Some (Document (JDict {[ "dry_freq" := dry_freq self;
                                     "wet_freq" := wet_freq self ]}))) as Hfile.
  { rewrite files_save. apply lookup_insert_eq. }
  pose proof (load_try_document fresh _ _ Hfile) as Htry.
  destruct (saved_members (dry_freq self) (wet_freq self)) as [Hd Hw].
  rewrite Hd, Hw in Htry. cbn [default] in Htry.
  destruct (load_return fresh _ _ Htry) as [Hself Hfiles].
  rewrite Hself, Hfiles. repeat split.
Qed.

(** X11. Restart.  After a configuration has been created, whatever was on
    the device before, the file exists and holds an object, the values in
    memory are those of the file, and creating the configuration again
    gives the same one and writes nothing. *)
Theorem init_settles (name : string) (w : world) :
  exists members : gmap string json,
    files (snd (init name w)) !! name = Some (Document (JDict members))
    /\ dry_freq (fst (init name w)) = default (JNum 27.0) (members !! "dry_freq")
    /\ wet_freq (fst (init name w)) = default (JNum 5.0) (members !! "wet_freq")
    /\ fst (init name (snd (init name w))) = fst (init name w)
    /\ files (snd (init name (snd (init name w)))) = files (snd (init name w)).
Proof.
  unfold init.
  set (fresh := {| filename := name; dry_freq := JNum 27.0; wet_freq := JNum 5.0 |}).
  assert (forall w1 members,
             files w1 !! name = Some (Document (JDict members)) ->
             fst (load fresh w1) =
               {| filename := name;
                  dry_freq := default (JNum 27.0) (members !! "dry_freq");
                  wet_freq := default (JNum 5.0) (members !! "wet_freq") |}
             /\ files (snd (load fresh w1)) = files w1) as Hdoc.
  { intros w1 members Hfile.
    apply load_return. apply (load_try_document fresh w1 members Hfile). }
  destruct (load_try fresh w) as [self' | e] eqn:Htry.
  - (* the file held an object: nothing is written *)
    assert (exists members, files w !! name = Some (Document (JDict members)))
      as [members Hfile].
    { unfold load_try, load_json in Htry. cbn [filename fresh] in Htry.
      destruct (files w !! name) as [[text | v] | ]; try discriminate.
      destruct v; try discriminate. eexists. reflexivity. }
    destruct (Hdoc w members Hfile) as [Hself Hfiles].
    assert (files (snd (load fresh w)) !! name = Some (Document (JDict members)))
      as Hfile' by (rewrite Hfiles; exact Hfile).
    destruct (Hdoc _ members Hfile') as [Hself' Hfiles'].
    exists members. rewrite Hself', Hfiles', Hself.
    repeat split. exact Hfile'.
  - (* no usable file: the defaults are written *)
    destruct (load_raise fresh w e Htry) as [Hself Hfiles].
    cbn [filename dry_freq wet_freq fresh] in Hfiles.
    assert (files (snd (load fresh w)) !! name
            = Some (Document (JDict {[ "dry_freq" := JNum 27.0;
                                       "wet_freq" := JNum 5.0 ]}))) as Hfile'
      by (rewrite Hfiles; apply lookup_insert_eq).
    destruct (Hdoc _ _ Hfile') as [Hself' Hfiles'].
    eexists. rewrite Hself', Hfiles', Hself.
    split; [ exact Hfile' | ]. repeat split.
Qed.

(** X12. Other files.  Creating a configuration reads and writes the file of
    its own name only: every other file is as it was. *)
Theorem init_keeps_other_files (name other : string) (w : world) :
  other <> name ->
  files (snd (init name w)) !! other = files w !! other.
Proof.
  intros Hne. unfold init.
  set (fresh := {| filename := name; dry_freq := JNum 27.0; wet_freq := JNum 5.0 |}).
  destruct (load_try fresh w) as [self' | e] eqn:Htry.
  - destruct (load_return fresh self' w Htry) as [_ ->]. reflexivity.
  - destruct (load_raise fresh w e Htry) as [_ ->].
    apply lookup_insert_ne. cbn [filename fresh]. congruence.
Qed.

Lemma init_keeps_other_files_witness :
  files (snd (init CONFIG_FILE hand_edited)) !! "wifi_config.json"
  = files hand_edited !! "wifi_config.json".
Proof. apply (init_keeps_other_files CONFIG_FILE "wifi_config.json" hand_edited). discriminate. Defined.

(** X13. Not an object.  A file that holds valid JSON which is not an object
    (a list, a number, a string, [null]) is treated like a missing one:
    the defaults are used and the file is overwritten with them. *)
Theorem init_overwrites_non_object (name : string) (w : world) (v : json) :
  files w !! name = Some (Document v) ->
  (forall members, v <> JDict members) ->
  dry_freq (fst (init name w)) = JNum 27.0
  /\ wet_freq (fst (init name w)) = JNum 5.0
  /\ files (snd (init name w)) = <[name := default_document]> (files w).
Proof.
  intros Hfile Hv. unfold init.
  set (fresh := {| filename := name; dry_freq := JNum 27.0; wet_freq := JNum 5.0 |}).
  pose proof (load_try_not_dict fresh w v Hfile Hv) as Htry.
  destruct (load_raise fresh w _ Htry) as [Hself Hfiles].
  rewrite Hself, Hfiles. repeat split.
Qed.

Lemma init_overwrites_non_object_witness :
  dry_freq (fst (init CONFIG_FILE
                   {| files := {[ CONFIG_FILE := Document (JList [JNum 20; JNum 4]) ]};
                      trace := [] |})) = JNum 27.0
  /\ wet_freq (fst (init CONFIG_FILE
                      {| files := {[ CONFIG_FILE := Document (JList [JNum 20; JNum 4]) ]};
                         trace := [] |})) = JNum 5.0
  /\ files (snd (init CONFIG_FILE
                   {| files := {[ CONFIG_FILE := Document (JList [JNum 20; JNum 4]) ]};
                      trace := [] |}))
     = <[CONFIG_FILE := default_document]>
         (files {| files := {[ CONFIG_FILE := Document (JList [JNum 20; JNum 4]) ]};
                   trace := [] |}).
Proof.
  apply (init_overwrites_non_object CONFIG_FILE
           {| files := {[ CONFIG_FILE := Document (JList [JNum 20; JNum 4]) ]};
              trace := [] |}
           (JList [JNum 20; JNum 4])).
  - reflexivity.
  - intros members. discriminate.
Defined.

End Startup.

(** ** What a stretch of the program adds to the trace *)

Module TraceFacts.
Import IO Trace Calibrate.

Lemma adds_refl (w : world) : adds w w [].
Proof. unfold adds. symmetry. apply app_nil_r. Qed.

Lemma adds_trans (w w1 w2 : world) (es1 es2 : list event) :
  adds w w1 es1 -> adds w1 w2 es2 -> adds w w2 (es1 ++ es2).
Proof. unfold adds. intros H1 H2. rewrite H2, H1. symmetry. apply app_assoc. Qed.

Lemma adds_emit (es : list event) (w : world) : adds w (emit es w) es.
Proof. reflexivity. Qed.

Lemma adds_show_message (l1 l2 l3 l4 : line) (w : world) :
  adds w (show_message l1 l2 l3 l4 w) (trace (show_message l1 l2 l3 l4 blank)).
Proof. reflexivity. Qed.

Lemma adds_countdown_timer (message : string) (seconds : nat) : forall w : world,
  adds w (countdown_timer seconds message w)
       (trace (countdown_timer seconds message blank)).
Proof.
  unfold adds. induction seconds as [ | rest IH ]; intros w.
  - symmetry. apply app_nil_r.
  - cbn [countdown_timer].
    rewrite (IH (emit _ (show_message _ _ _ _ w))),
            (IH (emit _ (show_message _ _ _ _ blank))).
    cbn [trace emit show_message blank app]. rewrite <- !app_assoc. reflexivity.
Qed.

Lemma pauses_app (es1 es2 : list event) :
  pauses (es1 ++ es2) = pauses es1 ++ pauses es2.
Proof.
  induction es1 as [ | e rest IH ]; [ reflexivity | ].
  destruct e; cbn [app pauses]; rewrite IH; reflexivity.
Qed.

Lemma total_app (a b : list Q) : (total (a ++ b) == total a + total b)%Q.
Proof.
  unfold total. induction a as [ | x rest IH ]; cbn [app fold_right].
  - symmetry. apply Qplus_0_l.
  - rewrite IH. apply Qplus_assoc.
Qed.

(** Peels the operations of a chain one by one, from the last, and
    collects what each adds. *)
Ltac adds_step :=
  lazymatch goal with
  | |- adds ?w ?w _ => apply adds_refl
  | |- adds _ (emit _ ?w') _ =>
      eapply (adds_trans _ w'); [ | apply adds_emit ]
  | |- adds _ (show_message _ _ _ _ ?w') _ =>
      eapply (adds_trans _ w'); [ | apply adds_show_message ]
  | |- adds _ (countdown_timer _ _ ?w') _ =>
      eapply (adds_trans _ w'); [ | apply adds_countdown_timer ]
  end.
Ltac adds_chain := repeat adds_step.

End TraceFacts.

(** ** More on the calibration script: what a run writes, shows and takes *)

Module Runs.
Import Py PyFacts IO Sensor Measurement Calibrate Calibration Trace TraceFacts.
Local Open Scope Q_scope.

(** The frequency measured over a window of the script. *)
Local Abbreviation hz window := (inject_Z (rising_edges window) / SAMPLE_TIME).

Lemma adds_dump_json (name : string) (data : json) (w : world) :
  adds w (dump_json name data w) [].
Proof. unfold adds. symmetry. apply app_nil_r. Qed.

Ltac adds_all :=
  repeat first [ adds_step
               | lazymatch goal with
                 | |- adds _ (dump_json _ _ ?w') _ =>
                     eapply (adds_trans _ w'); [ | apply adds_dump_json ]
                 end ].

(** Deciding calm event by event. *)
Lemma calm_all (es : list event) :
  forallb (fun e => negb (alarm e) && negb (caution e)) es = true ->
  Forall calm es.
Proof.
  induction es as [ | e rest IH ]; intros H; [ constructor | ].
  cbn [forallb] in H. apply andb_prop in H as [He Hrest].
  apply andb_prop in He as [Ha Hc].
  constructor; [ | apply IH, Hrest ].
  split; [ destruct (alarm e) | destruct (caution e) ]; (reflexivity || discriminate).
Qed.

Example alarms_recognised :
  alarm error_screen = true /\ alarm low_dry_screen = true
  /\ alarm high_wet_screen = true
  /\ caution low_dry_warning = true /\ caution high_wet_warning = true.
Proof. repeat split. Qed.

(** The frequencies compare as the pulse counts do. *)
Lemma hz_le (a b : list edge) :
  (rising_edges a <= rising_edges b)%Z <-> hz a <= hz b.
Proof.
  rewrite Zle_Qle. unfold SAMPLE_TIME, Qdiv. split; intros H.
  - apply Qmult_le_compat_r; [ exact H | ]. vm_compute. discriminate.
  - apply Qmult_le_r in H; [ exact H | reflexivity ].
Qed.

Lemma hz_lt (a b : list edge) :
  (rising_edges a < rising_edges b)%Z <-> hz a < hz b.
Proof.
  rewrite Zlt_Qlt. unfold SAMPLE_TIME, Qdiv. split; intros H.
  - apply Qmult_lt_compat_r; [ reflexivity | exact H ].
  - apply Qmult_lt_r in H; [ exact H | reflexivity ].
Qed.

(** Up to the validation a run writes nothing, raises no alarm and pauses
    for 34 seconds; the two frequencies it goes on with are the pulse
    counts of the two windows over 3 seconds. *)
Lemma main_reaches_validation (dry_window wet_window : list edge) (w : world) :
  exists w2 es,
    main dry_window wet_window w
    = (Ok tt, validate_and_save (hz dry_window) (hz wet_window) w2)
    /\ files w2 = files w
    /\ adds w w2 es
    /\ Forall calm es
    /\ total (pauses es) == 34.
Proof.
  unfold main, step1. cbv zeta.
  rewrite read_frequency_ok by (unfold SAMPLE_TIME; lra). cbv beta iota zeta.
  unfold step2. cbv zeta.
  rewrite read_frequency_ok by (unfold SAMPLE_TIME; lra). cbv beta iota zeta.
  eexists. eexists. split; [ reflexivity | ].
  split.
  { repeat first [ rewrite files_countdown_timer
                 | rewrite files_show_message
                 | rewrite files_emit ].
    reflexivity. }
  split; [ adds_all | ].
  split; [ apply calm_all; vm_compute; reflexivity | vm_compute; reflexivity ].
Qed.

(** The validation, when the calibration is rejected. *)
Lemma rejection_adds (dry_freq wet_freq : Q) (w : world) :
  dry_freq <= wet_freq ->
  exists es, adds w (validate_and_save dry_freq wet_freq w) es
             /\ total (pauses es) == 5.
Proof.
  intros H. unfold validate_and_save.
  assert (ge wet_freq dry_freq = true) as ->
    by (unfold ge; apply lt_false in H; rewrite H; reflexivity).
  eexists. split; [ adds_all | vm_compute; reflexivity ].
Qed.

(** The validation, when the calibration is accepted. *)
Lemma acceptance_adds (dry_freq wet_freq : Q) (w : world) :
  wet_freq < dry_freq ->
  exists es, adds w (validate_and_save dry_freq wet_freq w) es
             /\ total (pauses es)
                == 6 + (if lt dry_freq 15 then 5 else 0)
                     + (if gt wet_freq 10 then 5 else 0)
             /\ (lt dry_freq 15 = false -> gt wet_freq 10 = false -> Forall calm es).
Proof.
  intros H. unfold validate_and_save, summary, save_config.
  assert (ge wet_freq dry_freq = false) as ->
    by (unfold ge; apply lt_true in H; rewrite H; reflexivity).
  destruct (lt dry_freq 15), (gt wet_freq 10);
    (eexists; split; [ adds_all | ]; split;
     [ vm_compute; reflexivity
     | intros Hd Hw; first [ discriminate | apply calm_all; vm_compute; reflexivity ] ]).
Qed.

(** X14. Saved or not.  A run of the script always ends normally.  It leaves
    every file as it was when the dry window had no more rising edges than
    the wet one; otherwise it writes the two pulse counts over 3 seconds,
    as dry and wet frequency, to the configuration file. *)
Theorem calibration_saved_iff_more_dry_pulses (dry_window wet_window : list edge)
    (w : world) :
  fst (main dry_window wet_window w) = Ok tt
  /\ ((rising_edges dry_window <= rising_edges wet_window)%Z ->
      files (snd (main dry_window wet_window w)) = files w)
  /\ ((rising_edges wet_window < rising_edges dry_window)%Z ->
      files (snd (main dry_window wet_window w))
      = <[CONFIG_FILE :=
            Document (JDict {[ "dry_freq" := JNum (hz dry_window);
                               "wet_freq" := JNum (hz wet_window) ]})]>
          (files w)).
Proof.
  destruct (main_reaches_validation dry_window wet_window w)
    as (w2 & es & E & F & _).
  rewrite E. cbn [fst snd]. split; [ reflexivity | ]. split; intros H.
  - apply hz_le in H.
    destruct (validate_rejected _ _ w2 H) as (F3 & _). rewrite F3. exact F.
  - apply hz_lt in H.
    destruct (validate_accepted _ _ w2 H) as (F3 & _). rewrite F3, F. reflexivity.
Qed.

(** X15. Other files.  Whatever it measures, a run of the script changes no
    file other than the configuration file. *)
Theorem calibration_keeps_other_files (dry_window wet_window : list edge)
    (w : world) (other : string) :
  other <> CONFIG_FILE ->
  files (snd (main dry_window wet_window w)) !! other = files w !! other.
Proof.
  intros Hne.
  destruct (main_reaches_validation dry_window wet_window w)
    as (w2 & es & E & F & _).
  rewrite E. cbn [snd].
  destruct (Qlt_le_dec (hz wet_window) (hz dry_window)) as [H | H].
  - destruct (validate_accepted _ _ w2 H) as (F3 & _). rewrite F3, F.
    apply lookup_insert_ne. congruence.
  - destruct (validate_rejected _ _ w2 H) as (F3 & _). rewrite F3, F. reflexivity.
Qed.

Lemma calibration_keeps_other_files_witness :
  files (snd (main (pulses 81) (pulses 15) calibrated)) !! Wifi.WIFI_CONFIG_FILE
  = files calibrated !! Wifi.WIFI_CONFIG_FILE.
Proof.
  apply (calibration_keeps_other_files (pulses 81) (pulses 15) calibrated
           Wifi.WIFI_CONFIG_FILE).
  discriminate.
Defined.

(** X16. From the script to the monitor.  After a run that measured more pulses
    dry than wet, the configuration that [main.py] creates from the
    configuration file holds the two measured frequencies, the wet one
    below the dry one and not negative, and creating it writes nothing. *)
Theorem calibration_round_trip (dry_window wet_window : list edge) (w : world) :
  (rising_edges wet_window < rising_edges dry_window)%Z ->
  Config.dry_freq (fst (Config.init Config.CONFIG_FILE
                          (snd (main dry_window wet_window w))))
  = JNum (hz dry_window)
  /\ Config.wet_freq (fst (Config.init Config.CONFIG_FILE
                             (snd (main dry_window wet_window w))))
     = JNum (hz wet_window)
  /\ files (snd (Config.init Config.CONFIG_FILE (snd (main dry_window wet_window w))))
     = files (snd (main dry_window wet_window w))
  /\ 0 <= hz wet_window /\ hz wet_window < hz dry_window.
Proof.
  intros Hmore. pose proof Hmore as Hlt. apply hz_lt in Hlt.
  destruct (main_reaches_validation dry_window wet_window w)
    as (w2 & es & E & F & _).
  rewrite E. cbn [snd].
  destruct (validate_accepted _ _ w2 Hlt) as (F3 & _).
  set (w3 := validate_and_save (hz dry_window) (hz wet_window) w2) in *.
  unfold Config.init.
  set (fresh := {| Config.filename := Config.CONFIG_FILE;
                   Config.dry_freq := JNum 27.0;
                   Config.wet_freq := JNum 5.0 |}).
  assert (files w3 !! Config.filename fresh
          = Some (Document (JDict {[ "dry_freq" := JNum (hz dry_window);
                                     "wet_freq" := JNum (hz wet_window) ]}))) as Hfile.
  { rewrite F3. apply lookup_insert_eq. }
  pose proof (Startup.load_try_document fresh w3 _ Hfile) as Htry.
  destruct (Startup.saved_members (JNum (hz dry_window)) (JNum (hz wet_window)))
    as [Hd Hw].
  rewrite Hd, Hw in Htry. cbn [default] in Htry.
  destruct (Persistence.load_return fresh _ w3 Htry) as [Hself Hfiles].
  rewrite Hself, Hfiles. repeat split; [ | exact Hlt ].
  apply Qle_shift_div_l; [ reflexivity | ]. rewrite Qmult_0_l.
  change (inject_Z 0 <= inject_Z (rising_edges wet_window)).
  rewrite <- Zle_Qle. apply SensorFacts.rising_edges_nonneg.
Qed.

Lemma calibration_round_trip_witness :
  Config.dry_freq (fst (Config.init Config.CONFIG_FILE
                          (snd (main (pulses 81) (pulses 15) blank))))
  = JNum (hz (pulses 81))
  /\ Config.wet_freq (fst (Config.init Config.CONFIG_FILE
                             (snd (main (pulses 81) (pulses 15) blank))))
     = JNum (hz (pulses 15))
  /\ files (snd (Config.init Config.CONFIG_FILE (snd (main (pulses 81) (pulses 15) blank))))
     = files (snd (main (pulses 81) (pulses 15) blank))
  /\ 0 <= hz (pulses 15) /\ hz (pulses 15) < hz (pulses 81).
Proof. apply (calibration_round_trip (pulses 81) (pulses 15) blank). reflexivity. Defined.

(** X17. No false alarm.  A run that measures a dry frequency of at least
    15 Hz and a wet frequency of at most 10 Hz, the wet one below the dry
    one, adds to the output no screen headed ERROR! or WARNING! and no
    console line with the warning sign, and pauses for 40 seconds in
    all. *)
Theorem in_range_run_is_quiet (dry_window wet_window : list edge) (w : world) :
  hz wet_window < hz dry_window ->
  15 <= hz dry_window ->
  hz wet_window <= 10 ->
  exists es, adds w (snd (main dry_window wet_window w)) es
             /\ Forall calm es
             /\ total (pauses es) == 40.
Proof.
  intros Hlt Hdry Hwet.
  destruct (main_reaches_validation dry_window wet_window w)
    as (w2 & es1 & E & _ & A1 & C1 & T1).
  destruct (acceptance_adds _ _ w2 Hlt) as (es2 & A2 & T2 & C2).
  apply lt_false in Hdry. apply lt_false in Hwet. fold (gt (hz wet_window) 10) in Hwet.
  rewrite E. cbn [snd]. exists (es1 ++ es2).
  split; [ eapply adds_trans; eassumption | ]. split.
  - apply Forall_app. split; [ exact C1 | apply C2; assumption ].
  - rewrite pauses_app, total_app, T1, T2, Hdry, Hwet. reflexivity.
Qed.

Lemma in_range_run_is_quiet_witness :
  exists es, adds blank (snd (main (pulses 81) (pulses 15) blank)) es
             /\ Forall calm es
             /\ total (pauses es) == 40.
Proof.
  apply (in_range_run_is_quiet (pulses 81) (pulses 15) blank);
    vm_compute; first [ reflexivity | discriminate ].
Defined.

(** X18. How long a run takes.  The pauses of a run add up to 39 seconds when
    the calibration is rejected, and otherwise to 40 seconds plus 5 for
    each of the two warnings that is shown. *)
Theorem run_duration (dry_window wet_window : list edge) (w : world) :
  exists es,
    adds w (snd (main dry_window wet_window w)) es
    /\ (hz dry_window <= hz wet_window -> total (pauses es) == 39)
    /\ (hz wet_window < hz dry_window ->
        total (pauses es)
        == 40 + (if lt (hz dry_window) 15 then 5 else 0)
              + (if gt (hz wet_window) 10 then 5 else 0)).
Proof.
  destruct (main_reaches_validation dry_window wet_window w)
    as (w2 & es1 & E & _ & A1 & _ & T1).
  rewrite E. cbn [snd].
  destruct (Qlt_le_dec (hz wet_window) (hz dry_window)) as [H | H].
  - destruct (acceptance_adds _ _ w2 H) as (es2 & A2 & T2 & _).
    exists (es1 ++ es2). split; [ eapply adds_trans; eassumption | ].
    split; [ intros H'; lra | intros _ ].
    rewrite pauses_app, total_app, T1, T2.
    destruct (lt (hz dry_window) 15), (gt (hz wet_window) 10); reflexivity.
  - destruct (rejection_adds _ _ w2 H) as (es2 & A2 & T2).
    exists (es1 ++ es2). split; [ eapply adds_trans; eassumption | ].
    split; [ intros _ | intros H'; lra ].
    rewrite pauses_app, total_app, T1, T2. reflexivity.
Qed.

(** X19. The countdown.  A countdown of [seconds] seconds adds that many
    pauses of one second each, three events per second, and writes no
    file. *)
Theorem countdown_timer_pauses (seconds : nat) (message : string) (w : world) :
  exists es, adds w (countdown_timer seconds message w) es
             /\ pauses es = List.repeat 1 seconds
             /\ length es = (3 * seconds)%nat
             /\ files (countdown_timer seconds message w) = files w.
Proof.
  exists (trace (countdown_timer seconds message blank)).
  split; [ apply adds_countdown_timer | ].
  split; [ | split; [ | apply files_countdown_timer ] ].
  - induction seconds as [ | rest IH ]; [ reflexivity | ].
    cbn [countdown_timer].
    rewrite (adds_countdown_timer message rest (emit _ (show_message _ _ _ _ blank))).
    rewrite pauses_app, IH. reflexivity.
  - induction seconds as [ | rest IH ]; [ reflexivity | ].
    cbn [countdown_timer].
    rewrite (adds_countdown_timer message rest (emit _ (show_message _ _ _ _ blank))).
    rewrite length_app, IH. cbn [trace emit show_message blank app length]. lia.
Qed.

End Runs.

(** ** WiFi credentials and time synchronisation *)

Module Network.
Import Py IO Wifi Trace TraceFacts.

(** X20. Credentials.  [load_credentials] never raises and never writes.  It
    returns the values under ["ssid"] and ["password"] exactly when the
    credentials file holds a JSON object with both keys, and prints
    nothing then; in every other case (no file, text that is not JSON,
    JSON that is not an object, a missing key) it returns the pair
    [(None, None)] after one line on the console. *)
Theorem load_credentials_cases (describe : failure -> string) (w : world) :
  files (snd (load_credentials describe w)) = files w
  /\ ((exists (members : gmap string json) (ssid password : json),
         files w !! WIFI_CONFIG_FILE = Some (Document (JDict members))
         /\ members !! "ssid" = Some ssid
         /\ members !! "password" = Some password
         /\ load_credentials describe w = ((ssid, password), w))
      \/ ((forall members : gmap string json,
             files w !! WIFI_CONFIG_FILE = Some (Document (JDict members)) ->
             members !! "ssid" = None \/ members !! "password" = None)
          /\ exists e : failure,
               load_credentials describe w
               = ((JNull, JNull),
                  emit [Print [T "Error loading WiFi config: "; T (describe e)]] w))).
Proof.
  unfold load_credentials, load_json.
  destruct (files w !! WIFI_CONFIG_FILE) as [[text | config] | ] eqn:Hfile.
  - split; [ reflexivity | ]. right. split; [ intros members Hm; discriminate | ].
    eexists. reflexivity.
  - destruct config as [ | b | x | str | items | members ];
      try (split; [ reflexivity | ]; right;
           split; [ intros members Hm; discriminate | ]; eexists; reflexivity).
    cbn [subscript].
    destruct (members !! "ssid") as [ssid | ] eqn:Hssid.
    + destruct (members !! "password") as [password | ] eqn:Hpassword.
      * split; [ reflexivity | ]. left. exists members, ssid, password.
        repeat split; assumption.
      * split; [ reflexivity | ]. right. split.
        -- intros members' Hm. injection Hm as <-. right. exact Hpassword.
        -- eexists. reflexivity.
    + split; [ reflexivity | ]. right. split.
      * intros members' Hm. injection Hm as <-. left. exact Hssid.
      * eexists. reflexivity.
  - split; [ reflexivity | ]. right. split; [ intros members Hm; discriminate | ].
    eexists. reflexivity.
Qed.

Example format_timestamp_pads :
  format_timestamp {| year := 2025; month := 10; mday := 7; hour := 9; minute := 5;
                      second := 30; weekday := 1; yearday := 280 |}
  = [I 2025; T "-"; I 10; T "-"; T "0"; I 7; T " "; T "0"; I 9; T ":";
     T "0"; I 5; T ":"; I 30].
Proof. reflexivity. Qed.

(** *** The retry loop *)

(** The loop looks at the outcomes of its own passes only. *)
Lemma sync_attempts_ext (max_retries : nat) (server server' : nat -> ntp)
    (remaining : nat) : forall (attempt : nat) (w : world),
  (forall i, attempt <= i < attempt + remaining -> server i = server' i) ->
  sync_attempts max_retries server remaining attempt w
  = sync_attempts max_retries server' remaining attempt w.
Proof.
  induction remaining as [ | rest IH ]; intros attempt w Hsame; [ reflexivity | ].
  cbn [sync_attempts]. rewrite <- (Hsame attempt) by lia.
  destruct (server attempt) as [current_time | message]; [ reflexivity | ].
  apply IH. intros i Hi. apply Hsame. lia.
Qed.

(** Failures up to a success within the allowed passes: each failure is
    followed by a pause of 2 seconds. *)
Lemma sync_attempts_success (max_retries : nat) (server : nat -> ntp)
    (current_time : localtime) (k : nat) :
  forall (remaining attempt : nat) (w : world),
    (forall i, attempt <= i < attempt + k -> exists message, server i = Failed message) ->
    server (attempt + k) = Synced current_time ->
    k < remaining ->
    attempt + k < max_retries ->
    exists w' es,
      sync_attempts max_retries server remaining attempt w = (true, w')
      /\ adds w w' es
      /\ pauses es = List.repeat 2%Q k
      /\ files w' = files w.
Proof.
  induction k as [ | k IH ]; intros remaining attempt w Hfail Hsync Hrem Hmax.
  - destruct remaining as [ | rest ]; [ lia | ].
    cbn [sync_attempts]. rewrite Nat.add_0_r in Hsync. rewrite Hsync.
    eexists. eexists. split; [ reflexivity | ].
    split; [ apply adds_emit | ]. split; reflexivity.
  - destruct remaining as [ | rest ]; [ lia | ].
    cbn [sync_attempts].
    destruct (Hfail attempt ltac:(lia)) as [message ->].
    assert ((Z.of_nat attempt <? Z.of_nat max_retries - 1)%Z = true) as ->
      by (apply Z.ltb_lt; lia).
    destruct (IH rest (S attempt)
                (emit [Sleep 2]
                   (emit [Print [T "NTP sync attempt "; I (Z.of_nat attempt + 1);
                                 T " failed: "; T message]] w)))
      as (w' & es & E & A & P & F).
    + intros i Hi. apply Hfail. lia.
    + rewrite <- Hsync. f_equal. lia.
    + lia.
    + lia.
    + exists w'. eexists. split; [ exact E | ].
      split; [ | split; [ | exact F ] ].
      * eapply adds_trans; [ | exact A ].
        eapply adds_trans; apply adds_emit.
      * rewrite !pauses_app, P. reflexivity.
Qed.

(** Failures on all the passes: a pause of 2 seconds follows each failure
    but the last. *)
Lemma sync_attempts_exhausted (max_retries : nat) (server : nat -> ntp)
    (remaining : nat) : forall (attempt : nat) (w : world),
  (forall i, attempt <= i < attempt + remaining ->
             exists message, server i = Failed message) ->
  attempt + remaining = max_retries ->
  exists w' es,
    sync_attempts max_retries server remaining attempt w = (false, w')
    /\ adds w w' es
    /\ pauses es = List.repeat 2%Q (remaining - 1)
    /\ files w' = files w.
Proof.
  induction remaining as [ | rest IH ]; intros attempt w Hfail Hmax.
  - exists w, []. split; [ reflexivity | ]. split; [ apply adds_refl | ].
    split; reflexivity.
  - cbn [sync_attempts].
    destruct (Hfail attempt ltac:(lia)) as [message ->].
    destruct rest as [ | rest' ].
    + assert ((Z.of_nat attempt <? Z.of_nat max_retries - 1)%Z = false) as ->
        by (apply Z.ltb_ge; lia).
      eexists. eexists. split; [ reflexivity | ].
      split; [ apply adds_emit | ]. split; reflexivity.
    + assert ((Z.of_nat attempt <? Z.of_nat max_retries - 1)%Z = true) as ->
        by (apply Z.ltb_lt; lia).
      destruct (IH (S attempt)
                  (emit [Sleep 2]
                     (emit [Print [T "NTP sync attempt "; I (Z.of_nat attempt + 1);
                                   T " failed: "; T message]] w)))
        as (w' & es & E & A & P & F).
      * intros i Hi. apply Hfail. lia.
      * lia.
      * exists w'. eexists. split; [ exact E | ].
        split; [ | split; [ | exact F ] ].
        -- eapply adds_trans; [ | exact A ].
           eapply adds_trans; apply adds_emit.
        -- rewrite !pauses_app, P. cbn [Nat.sub]. rewrite Nat.sub_0_r. reflexivity.
Qed.

(** Once a pass has succeeded, the outcomes of later passes play no
    part. *)
Lemma sync_attempts_stop (max_retries : nat) (server server' : nat -> ntp)
    (current_time : localtime) (k : nat) :
  forall (remaining attempt : nat) (w : world),
    (forall i, attempt <= i <= attempt + k -> server' i = server i) ->
    server (attempt + k) = Synced current_time ->
    sync_attempts max_retries server' remaining attempt w
    = sync_attempts max_retries server remaining attempt w.
Proof.
  induction k as [ | k IH ]; intros remaining attempt w Hsame Hsync.
  - destruct remaining as [ | rest ]; [ reflexivity | ].
    cbn [sync_attempts]. rewrite (Hsame attempt) by lia.
    rewrite Nat.add_0_r in Hsync. rewrite Hsync. reflexivity.
  - destruct remaining as [ | rest ]; [ reflexivity | ].
    cbn [sync_attempts]. rewrite (Hsame attempt) by lia.
    destruct (server attempt) as [t | message]; [ reflexivity | ].
    apply IH.
    + intros i Hi. apply Hsame. lia.
    + rewrite <- Hsync. f_equal. lia.
Qed.

(** X21. First success.  When connected, if the first [k] calls of
    [ntptime.settime()] fail and the next one succeeds, with [k] below
    [max_retries], then [sync_time] returns [True] after exactly [k] pauses
    of 2 seconds, writes no file, and what later calls would have done
    plays no part. *)
Theorem sync_time_stops_at_first_success (max_retries : nat) (server : nat -> ntp)
    (current_time : localtime) (k : nat) (w : world) :
  k < max_retries ->
  (forall i, i < k -> exists message, server i = Failed message) ->
  server k = Synced current_time ->
  fst (sync_time true max_retries server w) = true
  /\ files (snd (sync_time true max_retries server w)) = files w
  /\ (exists es, adds w (snd (sync_time true max_retries server w)) es
                 /\ pauses es = List.repeat 2%Q k)
  /\ (forall server' : nat -> ntp,
        (forall i, i <= k -> server' i = server i) ->
        sync_time true max_retries server' w = sync_time true max_retries server w).
Proof.
  intros Hk Hfail Hsync. unfold sync_time. cbn [negb].
  destruct (sync_attempts_success max_retries server current_time k max_retries 0
              (emit [Print [T "Syncing time from NTP server..."]] w))
    as (w' & es & E & A & P & F).
  { intros i Hi. apply Hfail. lia. }
  { exact Hsync. }
  { exact Hk. }
  { lia. }
  split; [ rewrite E; reflexivity | ].
  split; [ rewrite E; exact F | ].
  split.
  - rewrite E. cbn [snd]. eexists. split.
    + eapply adds_trans; [ apply adds_emit | exact A ].
    + rewrite pauses_app, P. reflexivity.
  - intros server' Hsame.
    rewrite (sync_attempts_stop max_retries server server' current_time k);
      [ reflexivity | | exact Hsync ].
    intros i Hi. apply Hsame. lia.
Qed.

Lemma sync_time_stops_at_first_success_witness :
  fst (sync_time true 3 second_try blank) = true
  /\ files (snd (sync_time true 3 second_try blank)) = files blank
  /\ (exists es, adds blank (snd (sync_time true 3 second_try blank)) es
                 /\ pauses es = List.repeat 2%Q 1)
  /\ (forall server' : nat -> ntp,
        (forall i, i <= 1 -> server' i = second_try i) ->
        sync_time true 3 server' blank = sync_time true 3 second_try blank).
Proof.
  apply (sync_time_stops_at_first_success 3 second_try
           {| year := 2025; month := 10; mday := 7; hour := 9; minute := 5;
              second := 30; weekday := 1; yearday := 280 |} 1 blank).
  - lia.
  - intros i Hi. assert (i = 0) as -> by lia. eexists. reflexivity.
  - reflexivity.
Defined.

(** X22. Giving up.  When connected, if each of the first [max_retries] calls
    of [ntptime.settime()] fails, [sync_time] returns [False] after a pause
    of 2 seconds between one pass and the next, none after the last, its
    last line being the report of the failure; it writes no file. *)
Theorem sync_time_gives_up (max_retries : nat) (server : nat -> ntp) (w : world) :
  (forall i, i < max_retries -> exists message, server i = Failed message) ->
  fst (sync_time true max_retries server w) = false
  /\ files (snd (sync_time true max_retries server w)) = files w
  /\ exists es, adds w (snd (sync_time true max_retries server w))
                     (es ++ [Print [T "Failed to sync time after all retries"]])
                /\ pauses es = List.repeat 2%Q (max_retries - 1).
Proof.
  intros Hfail. unfold sync_time. cbn [negb].
  destruct (sync_attempts_exhausted max_retries server max_retries 0
              (emit [Print [T "Syncing time from NTP server..."]] w))
    as (w' & es & E & A & P & F).
  { intros i Hi. apply Hfail. lia. }
  { lia. }
  rewrite E. cbn [fst snd]. split; [ reflexivity | ]. split; [ exact F | ].
  eexists. split.
  - eapply adds_trans; [ | apply adds_emit ].
    eapply adds_trans; [ apply adds_emit | exact A ].
  - rewrite pauses_app, P. reflexivity.
Qed.

Lemma sync_time_gives_up_witness :
  fst (sync_time true 3 unreachable blank) = false
  /\ files (snd (sync_time true 3 unreachable blank)) = files blank
  /\ exists es, adds blank (snd (sync_time true 3 unreachable blank))
                     (es ++ [Print [T "Failed to sync time after all retries"]])
                /\ pauses es = List.repeat 2%Q (3 - 1).
Proof.
  apply (sync_time_gives_up 3 unreachable blank).
  intros i Hi. eexists. reflexivity.
Defined.

(** X23. Bounded.  [sync_time] calls [ntptime.settime()] at most [max_retries]
    times, and not at all when the manager is not connected: its result
    and its output are the same for two servers that differ only from
    call [max_retries] on, and for any two servers when not connected. *)
Theorem sync_time_bounded (connected : bool) (max_retries : nat)
    (server server' : nat -> ntp) (w : world) :
  (forall i, i < max_retries -> server i = server' i) ->
  sync_time connected max_retries server w = sync_time connected max_retries server' w
  /\ sync_time false max_retries server w
     = (false, emit [Print [T "Not connected to WiFi, cannot sync time"]] w).
Proof.
  intros Hsame. split; [ | reflexivity ].
  unfold sync_time. destruct connected; cbn [negb]; [ | reflexivity ].
  rewrite (sync_attempts_ext max_retries server server'); [ reflexivity | ].
  intros i Hi. apply Hsame. lia.
Qed.

Lemma sync_time_bounded_witness :
  sync_time true 1 second_try blank = sync_time true 1 unreachable blank
  /\ sync_time false 1 second_try blank
     = (false, emit [Print [T "Not connected to WiFi, cannot sync time"]] blank).
Proof.
  apply (sync_time_bounded true 1 second_try unreachable blank).
  intros i Hi. assert (i = 0) as -> by lia. reflexivity.
Defined.

End Network.
